(** * Mind-map visualiser: MindMapGraph, InfographicView and the App title

    A shallow embedding of the three TypeScript sources:
    - [types.ts]: [NodeData], [LinkData], [GraphData], [InfographicItem];
    - [components/InfographicView.tsx]: [IconMap] and the icon lookup;
    - [components/MindMapGraph.tsx]: the effect that sets the force
      simulation up, [getColor], [getRadius] and the rendered SVG;
    - [App.tsx]: the title shown above the mind map.

    JavaScript numbers are IEEE 754 binary64 values, which is what Rocq's
    primitive [float] is, so [===] on numbers is [PrimFloat.eqb] and
    [Object.is] is [PrimFloat.Leibniz.eqb]. *)

From Stdlib Require Import PrimFloat FloatAxioms.
From stdpp Require Import gmap strings list.

Set Default Proof Using "Type".
Set Warnings "-inexact-float".

(** ** JavaScript values used by the components *)

Module JS.

Abbreviation number := float (only parsing).

(** [a === b] on two numbers. *)
Definition strict_eq (a b : number) : bool := (a =? b)%float.

(** [a === k] where [a] may be [undefined]: [undefined] equals no number. *)
Definition opt_strict_eq (a : option number) (k : number) : bool :=
  match a with
  | Some v => strict_eq v k
  | None => false
  end.

(** [Object.is] on numbers: NaN is itself, [+0] and [-0] differ. *)
Definition Object_is (a b : number) : bool := PrimFloat.Leibniz.eqb a b.

(** A number is falsy when it is [0], [-0] or [NaN]. *)
Definition truthy_number (v : number) : bool :=
  negb (PrimFloat.is_zero v) && negb (PrimFloat.is_nan v).

(** [x || d] for [x : number | undefined]. *)
Definition or_number (x : option number) (d : number) : number :=
  match x with
  | Some v => if truthy_number v then v else d
  | None => d
  end.

(** A string is falsy when it is empty. *)
Definition truthy_string (s : string) : bool :=
  match s with
  | EmptyString => false
  | String _ _ => true
  end.

(** [s || d] for [s : string | undefined]. *)
Definition or_string (s : option string) (d : string) : string :=
  match s with
  | Some v => if truthy_string v then v else d
  | None => d
  end.

(** An object seen through a reference: [Object.is] on two references
    compares the identity, not the contents. *)
Record Obj (A : Type) := { oid : positive; contents : A }.
Arguments oid {A} _.
Arguments contents {A} _.

Definition same_object {A} (a b : Obj A) : bool := bool_decide (oid a = oid b).

End JS.

(** ** types.ts *)

Module NodeData.
Record t := {
  id : string;
  label : string;
  group : option JS.number;
  val : option JS.number
}.
End NodeData.

Module LinkData.
Record t := { source : string; target : string }.
End LinkData.

Module GraphData.
Record t := { nodes : list NodeData.t; links : list LinkData.t }.
End GraphData.

Module InfographicItem.
Record t := { title : string; description : string; icon : string }.
End InfographicItem.

(** ** MindMapGraph.tsx: simulation objects *)

(** [SimulationNode]: the fields of [NodeData] (copied by the spread
    [{ ...n }]) together with the fields of [d3.SimulationNodeDatum], which
    the engine writes. *)
Module SimulationNode.
Record t := {
  id : string;
  label : string;
  group : option JS.number;
  val : option JS.number;
  index : option nat;
  x : option JS.number;
  y : option JS.number;
  vx : option JS.number;
  vy : option JS.number;
  fx : option JS.number;
  fy : option JS.number
}.

(** [{ ...n }] for [n : NodeData]. *)
Definition of_data (n : NodeData.t) : t :=
  {| id := NodeData.id n; label := NodeData.label n;
     group := NodeData.group n; val := NodeData.val n;
     index := None; x := None; y := None; vx := None; vy := None;
     fx := None; fy := None |}.
End SimulationNode.

(** An end of a [SimulationLink] is [string | SimulationNode]. The node
    objects of one simulation are the elements of [initialNodes]; a
    reference to one of them is its position in that array, so that a link
    and the [nodes] state see the same, engine-updated, coordinates. *)
Inductive endpoint :=
| Id (name : string)
| NodeRef (addr : nat).

Module SimulationLink.
Record t := { source : endpoint; target : endpoint; index : option nat }.

(** [{ ...l }] for [l : LinkData]. *)
Definition of_data (l : LinkData.t) : t :=
  {| source := Id (LinkData.source l); target := Id (LinkData.target l);
     index := None |}.
End SimulationLink.

(** ** MindMapGraph.tsx: props and their defaults *)

Module Props.
Record t := {
  data : JS.Obj GraphData.t;
  width_opt : option JS.number;
  height_opt : option JS.number;
  isDarkMode_opt : option bool;
  showLabels_opt : option bool
}.

(** The destructuring defaults [width = 800], [height = 500],
    [isDarkMode = false], [showLabels = true]. *)
Definition width (p : t) : JS.number := default 800%float (width_opt p).
Definition height (p : t) : JS.number := default 500%float (height_opt p).
Definition isDarkMode (p : t) : bool := default false (isDarkMode_opt p).
Definition showLabels (p : t) : bool := default true (showLabels_opt p).

Definition graph (p : t) : GraphData.t := JS.contents (data p).

Definition set_showLabels (b : option bool) (p : t) : t :=
  {| data := data p; width_opt := width_opt p; height_opt := height_opt p;
     isDarkMode_opt := isDarkMode_opt p; showLabels_opt := b |}.
End Props.

(** ** MindMapGraph.tsx: colour and radius scales *)

(** [getColor(group = 2)]: the default parameter replaces [undefined]. *)
Definition getColor (isDarkMode : bool) (group : option JS.number) : string :=
  let group := default 2%float group in
  if JS.strict_eq group 1 then (if isDarkMode then "#818cf8" else "#6366f1")
  else if JS.strict_eq group 2 then (if isDarkMode then "#f472b6" else "#ec4899")
  else (if isDarkMode then "#60a5fa" else "#3b82f6").

(** [getRadius(group = 2)]. *)
Definition getRadius (group : option JS.number) : JS.number :=
  let group := default 2%float group in
  if JS.strict_eq group 1 then 50%float
  else if JS.strict_eq group 2 then 35%float
  else 25%float.

Definition textColor (isDarkMode : bool) : string :=
  if isDarkMode then "#e2e8f0" else "#1e293b".

Definition linkColor (isDarkMode : bool) : string :=
  if isDarkMode then "rgba(255,255,255,0.3)" else "rgba(0,0,0,0.2)".

(** ** MindMapGraph.tsx: the rendered SVG *)

Module Svg.

(** [<line key x1 y1 x2 y2 stroke strokeWidth />] *)
Record line := {
  line_key : nat;
  x1 : JS.number; y1 : JS.number; x2 : JS.number; y2 : JS.number;
  line_stroke : string;
  line_strokeWidth : JS.number
}.

(** The halo [<circle r fill opacity filter>] drawn behind the root. *)
Record halo := {
  halo_r : JS.number;
  halo_fill : string;
  halo_opacity : JS.number;
  halo_animate_values : string
}.

(** The node's own [<circle r fill stroke strokeWidth />]. *)
Record circle := {
  r : JS.number;
  fill : string;
  stroke : string;
  strokeWidth : JS.number
}.

(** [<foreignObject x y width height>] holding the label paragraph. *)
Record foreignObject := {
  fo_x : JS.number; fo_y : JS.number;
  fo_width : JS.number; fo_height : JS.number;
  fo_color : string;
  fo_text : string
}.

(** [<g key transform="translate(tx, ty)">] with its three children. *)
Record glyph := {
  glyph_key : string;
  translate : JS.number * JS.number;
  glyph_halo : option halo;
  glyph_circle : circle;
  glyph_label : option foreignObject
}.

(** The [<svg>] element: [viewBox] and the two groups. A link that the map
    callback answers with [null] is [None]. *)
Record svg := {
  viewBox : JS.number * JS.number * JS.number * JS.number;
  link_group : list (option line);
  node_group : list glyph
}.

(** The lines React puts in the document: [null] children draw nothing. *)
Definition lines (s : svg) : list line := omap id (link_group s).

(** A glyph without its label. *)
Definition without_label (g : glyph) : glyph :=
  {| glyph_key := glyph_key g; translate := translate g;
     glyph_halo := glyph_halo g; glyph_circle := glyph_circle g;
     glyph_label := None |}.

End Svg.

Section Render.

Variable p : Props.t.

(** [source.x], ... of a link end that is a node object. *)
Definition position (nodes : list SimulationNode.t) (e : endpoint)
  : option (option JS.number * option JS.number) :=
  match e with
  | Id _ => None
  | NodeRef a =>
      n ← nodes !! a; Some (SimulationNode.x n, SimulationNode.y n)
  end.

(** The callback of [links.map((link, i) => ...)]. *)
Definition render_link (nodes : list SimulationNode.t)
    (i : nat) (link : SimulationLink.t) : option Svg.line :=
  match SimulationLink.source link, SimulationLink.target link with
  | Id _, _ | _, Id _ => None
  | NodeRef _ as source, NodeRef _ as target =>
      match position nodes source, position nodes target with
      | Some (Some sx, Some sy), Some (Some tx, Some ty) =>
          Some {| Svg.line_key := i;
                  Svg.x1 := sx; Svg.y1 := sy; Svg.x2 := tx; Svg.y2 := ty;
                  Svg.line_stroke := linkColor (Props.isDarkMode p);
                  Svg.line_strokeWidth := 2%float |}
      | _, _ => None
      end
  end.

(** The callback of [nodes.map((node, i) => ...)]. *)
Definition render_node (node : SimulationNode.t) : Svg.glyph :=
  let group := SimulationNode.group node in
  {| Svg.glyph_key := SimulationNode.id node;
     Svg.translate :=
       (JS.or_number (SimulationNode.x node) (Props.width p / 2)%float,
        JS.or_number (SimulationNode.y node) (Props.height p / 2)%float);
     Svg.glyph_halo :=
       if JS.opt_strict_eq group 1 then
         Some {| Svg.halo_r := (getRadius group + 10)%float;
                 Svg.halo_fill := getColor (Props.isDarkMode p) group;
                 Svg.halo_opacity := 0.2%float;
                 Svg.halo_animate_values := "60;70;60" |}
       else None;
     Svg.glyph_circle :=
       {| Svg.r := getRadius group;
          Svg.fill := if Props.isDarkMode p then "rgba(30, 41, 59, 0.9)"
                      else "rgba(255,255,255,0.9)";
          Svg.stroke := getColor (Props.isDarkMode p) group;
          Svg.strokeWidth := 3%float |};
     Svg.glyph_label :=
       if Props.showLabels p then
         Some {| Svg.fo_x := (- getRadius group)%float;
                 Svg.fo_y := (- getRadius group)%float;
                 Svg.fo_width := (getRadius group * 2)%float;
                 Svg.fo_height := (getRadius group * 2)%float;
                 Svg.fo_color := textColor (Props.isDarkMode p);
                 Svg.fo_text := SimulationNode.label node |}
       else None |}.

(** The value returned by the component for the current [nodes] and
    [links] state. *)
Definition render (nodes : list SimulationNode.t)
    (links : list SimulationLink.t) : Svg.svg :=
  {| Svg.viewBox := (0%float, 0%float, Props.width p, Props.height p);
     Svg.link_group := imap (render_link nodes) links;
     Svg.node_group := map render_node nodes |}.

End Render.

(** ** MindMapGraph.tsx: the forces handed to [d3.forceSimulation] *)

Module Forces.
Record t := {
  link_distance : JS.number;
  charge_strength : JS.number;
  center : JS.number * JS.number;
  collide_radius : SimulationNode.t -> JS.number
}.
End Forces.

(** [forceLink(...).distance(120)], [forceManyBody().strength(-400)],
    [forceCenter(width / 2, height / 2)] and [forceCollide(60)]: a number
    given to [forceCollide] is the radius of every node. *)
Definition forces (p : Props.t) : Forces.t :=
  {| Forces.link_distance := 120%float;
     Forces.charge_strength := (-400)%float;
     Forces.center := ((Props.width p / 2)%float, (Props.height p / 2)%float);
     Forces.collide_radius := fun _ => 60%float |}.

(** The least distance the collision force keeps between the centres of
    two nodes: the sum of their collision radii. *)
Definition collide_distance (f : Forces.t) (a b : SimulationNode.t)
  : JS.number :=
  (Forces.collide_radius f a + Forces.collide_radius f b)%float.

(** ** The engine

    d3-force is a dependency of the component, not a file of the
    repository. Its numerical part (where a fresh node is put, how one tick
    moves the nodes) is left open in [Engine.t]. The two discrete steps that
    run while the effect sets the simulation up follow the library's
    [simulation.js] ([initializeNodes]) and [link.js] ([find] and
    [initialize]). *)

Module Engine.
Record t := {
  place : nat -> JS.number * JS.number;
  move : Forces.t -> list SimulationNode.t -> list SimulationLink.t ->
         SimulationNode.t ->
         (JS.number * JS.number) * (JS.number * JS.number)
}.
End Engine.

Inductive error :=
| NodeNotFound (nodeId : string).

Module D3.

(** [isNaN(v)] for [v : number | undefined]. *)
Definition isNaN (v : option JS.number) : bool :=
  match v with
  | Some f => PrimFloat.is_nan f
  | None => true
  end.

(** One round of the loop of [initializeNodes]: the node gets its index, a
    pinned coordinate is copied, a node without a position is placed, a
    node without a velocity gets velocity zero. *)
Definition initializeNode (e : Engine.t) (i : nat) (n : SimulationNode.t)
  : SimulationNode.t :=
  let x0 := match SimulationNode.fx n with
            | Some f => Some f | None => SimulationNode.x n end in
  let y0 := match SimulationNode.fy n with
            | Some f => Some f | None => SimulationNode.y n end in
  let unplaced := isNaN x0 || isNaN y0 in
  let still := isNaN (SimulationNode.vx n) || isNaN (SimulationNode.vy n) in
  {| SimulationNode.id := SimulationNode.id n;
     SimulationNode.label := SimulationNode.label n;
     SimulationNode.group := SimulationNode.group n;
     SimulationNode.val := SimulationNode.val n;
     SimulationNode.index := Some i;
     SimulationNode.x := if unplaced then Some (Engine.place e i).1 else x0;
     SimulationNode.y := if unplaced then Some (Engine.place e i).2 else y0;
     SimulationNode.vx :=
       if still then Some 0%float else SimulationNode.vx n;
     SimulationNode.vy :=
       if still then Some 0%float else SimulationNode.vy n;
     SimulationNode.fx := SimulationNode.fx n;
     SimulationNode.fy := SimulationNode.fy n |}.

Definition initializeNodes (e : Engine.t) (nodes : list SimulationNode.t)
  : list SimulationNode.t :=
  imap (initializeNode e) nodes.

(** [new Map(nodes.map((d, i) => [id(d), d]))] with the accessor
    [d => d.id]: of two nodes with one id the later one is kept. *)
Definition nodeById (nodes : list SimulationNode.t) : gmap string nat :=
  foldl (fun m '(i, n) => <[SimulationNode.id n := i]> m) (∅ : gmap string nat)
        (imap pair nodes).

(** [find(nodeById, nodeId)] throws when the map has no such id; an end
    that is an object already is left as it is. *)
Definition find (m : gmap string nat) (e : endpoint) : error + endpoint :=
  match e with
  | NodeRef a => inr (NodeRef a)
  | Id nodeId =>
      match m !! nodeId with
      | Some a => inr (NodeRef a)
      | None => inl (NodeNotFound nodeId)
      end
  end.

(** The loop of the link force's [initialize], link [i] onwards: index,
    then source, then target; the first failure ends it. *)
Fixpoint initializeLinks (m : gmap string nat) (i : nat)
    (links : list SimulationLink.t) : error + list SimulationLink.t :=
  match links with
  | [] => inr []
  | link :: rest =>
      match find m (SimulationLink.source link) with
      | inl err => inl err
      | inr source =>
          match find m (SimulationLink.target link) with
          | inl err => inl err
          | inr target =>
              match initializeLinks m (S i) rest with
              | inl err => inl err
              | inr rest' =>
                  inr ({| SimulationLink.source := source;
                          SimulationLink.target := target;
                          SimulationLink.index := Some i |} :: rest')
              end
          end
      end
  end.

(** One tick: the engine writes the position and the velocity of every
    node, and nothing else. *)
Definition tickNode (e : Engine.t) (f : Forces.t)
    (nodes : list SimulationNode.t) (links : list SimulationLink.t)
    (n : SimulationNode.t) : SimulationNode.t :=
  let '((x', y'), (vx', vy')) := Engine.move e f nodes links n in
  {| SimulationNode.id := SimulationNode.id n;
     SimulationNode.label := SimulationNode.label n;
     SimulationNode.group := SimulationNode.group n;
     SimulationNode.val := SimulationNode.val n;
     SimulationNode.index := SimulationNode.index n;
     SimulationNode.x := Some x'; SimulationNode.y := Some y';
     SimulationNode.vx := Some vx'; SimulationNode.vy := Some vy';
     SimulationNode.fx := SimulationNode.fx n;
     SimulationNode.fy := SimulationNode.fy n |}.

Definition tick (e : Engine.t) (f : Forces.t)
    (nodes : list SimulationNode.t) (links : list SimulationLink.t)
  : list SimulationNode.t :=
  map (tickNode e f nodes links) nodes.

End D3.

(** ** MindMapGraph.tsx: the component instance

    The hook state of one mounted [MindMapGraph]: the [nodes] and [links]
    of the two [useState] calls, the props of the last render and the
    simulation whose clean-up ([simulation.stop()]) is pending. The arrays
    in the state hold the very objects the engine updates, so the fields
    below are their current contents. *)

Module Instance.
Record t := {
  props : Props.t;
  nodes : list SimulationNode.t;
  links : list SimulationLink.t;
  simulation : option Forces.t
}.

Definition initial (p : Props.t) : t :=
  {| props := p; nodes := []; links := []; simulation := None |}.

Definition with_props (p : Props.t) (c : t) : t :=
  {| props := p; nodes := nodes c; links := links c;
     simulation := simulation c |}.

(** The clean-up returned by the effect: [simulation.stop()]. *)
Definition cleanup (c : t) : t :=
  {| props := props c; nodes := nodes c; links := links c;
     simulation := None |}.
End Instance.

Section Component.

Variable e : Engine.t.

(** The body of [useEffect(() => { ... }, [data, width, height])], run
    with props [p]. The guard [!data || data.nodes.length === 0] is the
    test for an empty node list, [data] being an object ([App] renders the
    component under [graphData &&] only). By the time the state set by
    [setNodes(initialNodes)] and [setLinks(initialLinks)] is rendered, the
    engine has initialised those very objects, so the state holds the
    placed nodes and the resolved links. An exception thrown by the set-up
    leaves the effect through [inl]. *)
Definition effect (p : Props.t) (c : Instance.t) : error + Instance.t :=
  match GraphData.nodes (Props.graph p) with
  | [] => inr (Instance.with_props p c)
  | _ :: _ =>
      let initialNodes :=
        map SimulationNode.of_data (GraphData.nodes (Props.graph p)) in
      let initialLinks :=
        map SimulationLink.of_data (GraphData.links (Props.graph p)) in
      let placed := D3.initializeNodes e initialNodes in
      match D3.initializeLinks (D3.nodeById placed) 0 initialLinks with
      | inl err => inl err
      | inr resolved =>
          inr {| Instance.props := p;
                 Instance.nodes := placed;
                 Instance.links := resolved;
                 Instance.simulation := Some (forces p) |}
      end
  end.

(** The dependency array [[data, width, height]], compared entry by entry
    with [Object.is]. *)
Definition deps_changed (old new : Props.t) : bool :=
  negb (JS.same_object (Props.data old) (Props.data new)
        && JS.Object_is (Props.width old) (Props.width new)
        && JS.Object_is (Props.height old) (Props.height new)).

(** First render and first run of the effect. *)
Definition mount (p : Props.t) : error + Instance.t :=
  effect p (Instance.initial p).

(** A render with new props: the effect is cleaned up and run again only
    when a dependency changed. *)
Definition update (p : Props.t) (c : Instance.t) : error + Instance.t :=
  if deps_changed (Instance.props c) p
  then effect p (Instance.cleanup c)
  else inr (Instance.with_props p c).

(** The ["tick"] listener: [setNodes([...initialNodes])] and
    [setLinks([...initialLinks])] after the engine moved the nodes. A
    stopped simulation ticks no more. *)
Definition tick (c : Instance.t) : Instance.t :=
  match Instance.simulation c with
  | None => c
  | Some f =>
      {| Instance.props := Instance.props c;
         Instance.nodes := D3.tick e f (Instance.nodes c) (Instance.links c);
         Instance.links := Instance.links c;
         Instance.simulation := Some f |}
  end.

Definition unmount (c : Instance.t) : Instance.t := Instance.cleanup c.

End Component.

(** What the instance shows. *)
Definition view (c : Instance.t) : Svg.svg :=
  render (Instance.props c) (Instance.nodes c) (Instance.links c).

(** ** App.tsx: the title above the mind map *)

Module App.

Inductive visualizerType := mindmap | infographic.

Definition fallback_title : string := "Chủ đề chính".

(** The predicate of [graphData.nodes.find(n => n.group === 1)]. *)
Definition is_root (n : NodeData.t) : bool :=
  JS.opt_strict_eq (NodeData.group n) 1.

(** [graphData.nodes.find(n => n.group === 1)?.label || "Chủ đề chính"] *)
Definition title (graphData : GraphData.t) : string :=
  JS.or_string
    (NodeData.label <$> List.find is_root (GraphData.nodes graphData))
    fallback_title.

(** The [<h3>] is part of the page when the mind map is selected and
    [graphData] is not [null]. *)
Definition heading (v : visualizerType) (graphData : option GraphData.t)
  : option string :=
  match v, graphData with
  | mindmap, Some g => Some (title g)
  | _, _ => None
  end.

End App.

(** ** InfographicView.tsx: the icon of a card *)

Module InfographicView.

Inductive icon :=
| ChartBarIcon | LightBulbIcon | UserGroupIcon | GlobeAltIcon
| ClockIcon | ShieldCheckIcon | TrophyIcon | SparklesIcon.

(** The own properties of the object literal [IconMap]. *)
Definition IconMap : gmap string icon :=
  list_to_map
    [("chart", ChartBarIcon); ("bulb", LightBulbIcon);
     ("users", UserGroupIcon); ("globe", GlobeAltIcon);
     ("time", ClockIcon); ("shield", ShieldCheckIcon);
     ("target", TrophyIcon); ("default", SparklesIcon)].

(** [IconMap] is an object literal, so its prototype is
    [Object.prototype]; these are the names that one defines. *)
Definition Object_prototype : list string :=
  ["constructor"; "hasOwnProperty"; "isPrototypeOf"; "propertyIsEnumerable";
   "toLocaleString"; "toString"; "valueOf"; "__proto__";
   "__defineGetter__"; "__defineSetter__";
   "__lookupGetter__"; "__lookupSetter__"].

(** What [IconMap[key]] evaluates to: an own property, else a property
    found along the prototype chain, else [undefined]. *)
Inductive value :=
| Component (c : icon)
| Inherited (name : string)
| Undefined.

Definition get (key : string) : value :=
  match IconMap !! key with
  | Some c => Component c
  | None =>
      if bool_decide (key ∈ Object_prototype) then Inherited key
      else Undefined
  end.

(** Functions and objects are truthy, [undefined] is not. *)
Definition truthy (v : value) : bool :=
  match v with
  | Undefined => false
  | _ => true
  end.

(** [const Icon = IconMap[item.icon] || IconMap.default] *)
Definition Icon (item : InfographicItem.t) : value :=
  let v := get (InfographicItem.icon item) in
  if truthy v then v else get "default".

(** One card: the element type used for its two icons, its title and,
    when [showDescription] holds, its description. *)
Record card := {
  card_key : nat;
  card_icon : value;
  card_title : string;
  card_description : option string
}.

Definition render_card (showDescription : bool) (index : nat)
    (item : InfographicItem.t) : card :=
  {| card_key := index;
     card_icon := Icon item;
     card_title := InfographicItem.title item;
     card_description :=
       if showDescription then Some (InfographicItem.description item)
       else None |}.

(** [data.map((item, index) => ...)] *)
Definition render (showDescription : bool) (data : list InfographicItem.t)
  : list card :=
  imap (render_card showDescription) data.

End InfographicView.

(** ** Snapshots

    What a snapshot of a node consists of: its identity, label and group
    and the position the engine gave it. The velocity, the index and the
    pinned position are the engine's own. *)

Definition same_snapshot (a b : SimulationNode.t) : Prop :=
  SimulationNode.id a = SimulationNode.id b ∧
  SimulationNode.label a = SimulationNode.label b ∧
  SimulationNode.group a = SimulationNode.group b ∧
  SimulationNode.x a = SimulationNode.x b ∧
  SimulationNode.y a = SimulationNode.y b.

(** ** Node categories

    The categories the colour and radius scales are described with. A node
    whose [group] is absent is [no_group]. *)

Inductive category := root | branch | leaf | no_group.

Definition category_group (c : category) : option JS.number :=
  match c with
  | root => Some 1%float
  | branch => Some 2%float
  | leaf => Some 3%float
  | no_group => None
  end.

(** ** Sample inputs *)

Module Sample.

Definition node (id label : string) (group : option JS.number) : NodeData.t :=
  {| NodeData.id := id; NodeData.label := label;
     NodeData.group := group; NodeData.val := None |}.

Definition link (source target : string) : LinkData.t :=
  {| LinkData.source := source; LinkData.target := target |}.

Definition props (oid : positive) (nodes : list NodeData.t)
    (links : list LinkData.t) : Props.t :=
  {| Props.data :=
       {| JS.oid := oid;
          JS.contents := {| GraphData.nodes := nodes;
                            GraphData.links := links |} |};
     Props.width_opt := None; Props.height_opt := None;
     Props.isDarkMode_opt := None; Props.showLabels_opt := None |}.

(** A root, a branch and a leaf, linked in a chain. *)
Definition three_nodes : list NodeData.t :=
  [node "x" "Topic" (Some 1%float); node "b" "Branch" (Some 2%float);
   node "c" "Leaf" (Some 3%float)].

Definition chain : Props.t :=
  props 1 three_nodes [link "x" "b"; link "b" "c"].

(** One node and a link to an id that no node has. *)
Definition dangling : Props.t :=
  props 2 [node "x" "Topic" (Some 1%float)] [link "x" "missing"].

(** No node at all. *)
Definition empty : Props.t := props 3 [] [].

(** Branches and leaves only. *)
Definition rootless : GraphData.t :=
  {| GraphData.nodes := [node "b" "Branch" (Some 2%float);
                         node "c" "Leaf" (Some 3%float)];
     GraphData.links := [link "b" "c"] |}.

(** An engine that puts node [i] at [(10 * (i+1), 10 * (i+1))] and moves
    every node one unit to the right at each tick. *)
Definition engine : Engine.t :=
  {| Engine.place := fun i =>
       let v := Nat.iter i (fun v => (v + 10)%float) 10%float in (v, v);
     Engine.move := fun _ _ _ n =>
       let x := default 0%float (SimulationNode.x n) in
       let y := default 0%float (SimulationNode.y n) in
       ((x + 1, y)%float, (1%float, 0%float)) |}.

Definition unplaced_leaf : SimulationNode.t :=
  SimulationNode.of_data (node "c" "Leaf" (Some 3%float)).


(** The same root, one tick later: same position fields are written anew,
    the velocity differs. *)
Definition moving_root : SimulationNode.t :=
  {| SimulationNode.id := "x"; SimulationNode.label := "Topic";
     SimulationNode.group := Some 1%float; SimulationNode.val := None;
     SimulationNode.index := Some 7;
     SimulationNode.x := Some 10%float; SimulationNode.y := Some 10%float;
     SimulationNode.vx := Some 1.5%float; SimulationNode.vy := Some 2%float;
     SimulationNode.fx := None; SimulationNode.fy := None |}.

(** The root alone, and the instance mounted with it. *)
Definition single : Props.t := props 4 [node "x" "Topic" (Some 1%float)] [].

Definition mounted (p : Props.t) : Instance.t :=
  match mount engine p with
  | inr c => c
  | inl _ => Instance.initial p
  end.


Definition frame_links : list SimulationLink.t :=
  [{| SimulationLink.source := NodeRef 0; SimulationLink.target := NodeRef 1;
      SimulationLink.index := Some 0 |}].

End Sample.

(** ** Instances after a completed set-up *)

(** The engine has given the node a position. *)
Definition placed (n : SimulationNode.t) : Prop :=
  is_Some (SimulationNode.x n) ∧ is_Some (SimulationNode.y n).

(** Both ends of the link are node objects of [nodes]. *)
Definition resolved (nodes : list SimulationNode.t) (link : SimulationLink.t)
  : Prop :=
  ∃ s t, SimulationLink.source link = NodeRef s ∧
         SimulationLink.target link = NodeRef t ∧
         s < length nodes ∧ t < length nodes.

Definition well_formed (c : Instance.t) : Prop :=
  Forall placed (Instance.nodes c) ∧
  Forall (resolved (Instance.nodes c)) (Instance.links c).

(** [n] ticks of the engine, one after the other. *)
Definition ticks (e : Engine.t) (n : nat) (c : Instance.t) : Instance.t :=
  Nat.iter n (tick e) c.

(** The ids of the nodes of a graph. *)
Definition node_ids (g : GraphData.t) : list string :=
  map NodeData.id (GraphData.nodes g).

(** Every end of every link names a node of the graph. *)
Definition closed_links (g : GraphData.t) : Prop :=
  ∀ l, l ∈ GraphData.links g →
       LinkData.source l ∈ node_ids g ∧ LinkData.target l ∈ node_ids g.

(** ** Geometry of the SVG

    What is left of a glyph and of a line when the colours are taken
    away. *)

Definition glyph_geometry (g : Svg.glyph)
  : string * (JS.number * JS.number) * JS.number * option JS.number
    * option (JS.number * JS.number * JS.number * JS.number * string) :=
  (Svg.glyph_key g, Svg.translate g, Svg.r (Svg.glyph_circle g),
   Svg.halo_r <$> Svg.glyph_halo g,
   (fun f => (Svg.fo_x f, Svg.fo_y f, Svg.fo_width f, Svg.fo_height f,
              Svg.fo_text f)) <$> Svg.glyph_label g).

Definition line_geometry (l : Svg.line)
  : nat * (JS.number * JS.number) * (JS.number * JS.number) * JS.number :=
  (Svg.line_key l, (Svg.x1 l, Svg.y1 l), (Svg.x2 l, Svg.y2 l),
   Svg.line_strokeWidth l).

Definition set_isDarkMode (b : option bool) (p : Props.t) : Props.t :=
  {| Props.data := Props.data p; Props.width_opt := Props.width_opt p;
     Props.height_opt := Props.height_opt p;
     Props.isDarkMode_opt := b;
     Props.showLabels_opt := Props.showLabels_opt p |}.

(** A node at the origin of the x axis, and a link from it. *)
Definition origin_node : SimulationNode.t :=
  {| SimulationNode.id := "o"; SimulationNode.label := "Origin";
     SimulationNode.group := Some 2%float; SimulationNode.val := None;
     SimulationNode.index := Some 0;
     SimulationNode.x := Some 0%float; SimulationNode.y := Some 120%float;
     SimulationNode.vx := Some 0%float; SimulationNode.vy := Some 0%float;
     SimulationNode.fx := None; SimulationNode.fy := None |}.

Definition origin_nodes : list SimulationNode.t :=
  [origin_node; Sample.moving_root].

(** ** String.prototype.trim

    Strings are kept as their UTF-8 bytes. [trim] removes the white space
    and line terminators of ECMAScript from both ends, so [!s.trim()]
    holds exactly when [s] is made of such characters only. *)

Module JSString.

Definition byte (a : Ascii.ascii) : N := Ascii.N_of_ascii a.

(** TAB, LF, VT, FF, CR and SPACE. *)
Definition one_byte_space (a : Ascii.ascii) : bool :=
  bool_decide (byte a ∈ [9; 10; 11; 12; 13; 32]%N).

(** U+00A0. *)
Definition two_byte_space (a b : Ascii.ascii) : bool :=
  bool_decide ((byte a, byte b) = (194, 160)%N).

(** U+1680, U+2000 to U+200A, U+2028, U+2029, U+202F, U+205F, U+3000 and
    U+FEFF. *)
Definition three_byte_space (a b c : Ascii.ascii) : bool :=
  bool_decide
    ((byte a, byte b, byte c) ∈
     [(225, 154, 128); (226, 128, 128); (226, 128, 129); (226, 128, 130);
      (226, 128, 131); (226, 128, 132); (226, 128, 133); (226, 128, 134);
      (226, 128, 135); (226, 128, 136); (226, 128, 137); (226, 128, 138);
      (226, 128, 168); (226, 128, 169); (226, 128, 175); (226, 129, 159);
      (227, 128, 128); (239, 187, 191)]%N).

(** [!s.trim()] *)
Fixpoint is_blank (s : string) : bool :=
  match s with
  | EmptyString => true
  | String a r =>
      if one_byte_space a then is_blank r
      else
        match r with
        | EmptyString => false
        | String b r1 =>
            if two_byte_space a b then is_blank r1
            else
              match r1 with
              | EmptyString => false
              | String c r2 =>
                  if three_byte_space a b c then is_blank r2 else false
              end
        end
  end.

Definition newline : string := String (Ascii.ascii_of_nat 10) EmptyString.

(** [parts.join(sep)] *)
Fixpoint join (sep : string) (parts : list string) : string :=
  match parts with
  | [] => ""
  | [x] => x
  | x :: rest => x +:+ sep +:+ join sep rest
  end.

End JSString.

(** ** geminiService.ts

    The answer of [ai.models.generateContent] is not computed here: a call
    either rejects or resolves to a response whose [text] is a string or
    [undefined]. [JSON.parse] followed by the cast to the declared type is
    a parameter that fails where [JSON.parse] throws. *)

Inductive outcome (A : Type) :=
| Resolved (a : A)
| Rejected.
Arguments Resolved {A} _.
Arguments Rejected {A}.

Module GeminiService.

Definition summary_fallback : string := "Không thể tạo tóm tắt.".

(** [summarizeText]: [response.text || "Không thể tạo tóm tắt."], an
    error being thrown again. *)
Definition summarizeText (response : outcome (option string))
  : outcome string :=
  match response with
  | Resolved text => Resolved (JS.or_string text summary_fallback)
  | Rejected => Rejected
  end.

(** The tail shared by [generateMindMapData] and
    [generateInfographicData]: [if (!jsonText) throw ...] and
    [return JSON.parse(jsonText) as ...]. *)
Definition parse_response {A} (JSON_parse : string → option A)
    (response : outcome (option string)) : outcome A :=
  match response with
  | Rejected => Rejected
  | Resolved None => Rejected
  | Resolved (Some jsonText) =>
      if JS.truthy_string jsonText then
        match JSON_parse jsonText with
        | Some v => Resolved v
        | None => Rejected
        end
      else Rejected
  end.

Definition generateMindMapData (JSON_parse : string → option GraphData.t)
    (response : outcome (option string)) : outcome GraphData.t :=
  parse_response JSON_parse response.

Definition generateInfographicData
    (JSON_parse : string → option (list InfographicItem.t))
    (response : outcome (option string))
  : outcome (list InfographicItem.t) :=
  parse_response JSON_parse response.

(** The [enum] of the [icon] property in the response schema of
    [generateInfographicData]. *)
Definition icon_enum : list string :=
  ["chart"; "bulb"; "users"; "globe"; "time"; "shield"; "target"].

End GeminiService.

(** ** App.tsx: state and handlers *)

Module AppState.

Inductive screen := input | visualizer.

Record t := {
  view : screen;
  visualizerType : App.visualizerType;
  inputText : string;
  summary : string;
  graphData : option (JS.Obj GraphData.t);
  infographicData : option (list InfographicItem.t);
  isSummarizing : bool;
  isGeneratingGraph : bool;
  isGeneratingInfographic : bool;
  error : option string;
  isDarkMode : bool;
  showAnnotations : bool
}.

(** The initial values of the [useState] calls. *)
Definition initial : t :=
  {| view := input; visualizerType := App.mindmap;
     inputText := ""; summary := "";
     graphData := None; infographicData := None;
     isSummarizing := false; isGeneratingGraph := false;
     isGeneratingInfographic := false;
     error := None; isDarkMode := false; showAnnotations := true |}.

(** The state setters. *)
Definition setView (v : screen) (st : t) : t :=
  {| view := v;
     visualizerType := visualizerType st;
     inputText := inputText st;
     summary := summary st;
     graphData := graphData st;
     infographicData := infographicData st;
     isSummarizing := isSummarizing st;
     isGeneratingGraph := isGeneratingGraph st;
     isGeneratingInfographic := isGeneratingInfographic st;
     error := error st;
     isDarkMode := isDarkMode st;
     showAnnotations := showAnnotations st |}.

Definition setVisualizerType (v : App.visualizerType) (st : t) : t :=
  {| view := view st;
     visualizerType := v;
     inputText := inputText st;
     summary := summary st;
     graphData := graphData st;
     infographicData := infographicData st;
     isSummarizing := isSummarizing st;
     isGeneratingGraph := isGeneratingGraph st;
     isGeneratingInfographic := isGeneratingInfographic st;
     error := error st;
     isDarkMode := isDarkMode st;
     showAnnotations := showAnnotations st |}.

Definition setInputText (v : string) (st : t) : t :=
  {| view := view st;
     visualizerType := visualizerType st;
     inputText := v;
     summary := summary st;
     graphData := graphData st;
     infographicData := infographicData st;
     isSummarizing := isSummarizing st;
     isGeneratingGraph := isGeneratingGraph st;
     isGeneratingInfographic := isGeneratingInfographic st;
     error := error st;
     isDarkMode := isDarkMode st;
     showAnnotations := showAnnotations st |}.

Definition setSummary (v : string) (st : t) : t :=
  {| view := view st;
     visualizerType := visualizerType st;
     inputText := inputText st;
     summary := v;
     graphData := graphData st;
     infographicData := infographicData st;
     isSummarizing := isSummarizing st;
     isGeneratingGraph := isGeneratingGraph st;
     isGeneratingInfographic := isGeneratingInfographic st;
     error := error st;
     isDarkMode := isDarkMode st;
     showAnnotations := showAnnotations st |}.

Definition setGraphData (v : option (JS.Obj GraphData.t)) (st : t) : t :=
  {| view := view st;
     visualizerType := visualizerType st;
     inputText := inputText st;
     summary := summary st;
     graphData := v;
     infographicData := infographicData st;
     isSummarizing := isSummarizing st;
     isGeneratingGraph := isGeneratingGraph st;
     isGeneratingInfographic := isGeneratingInfographic st;
     error := error st;
     isDarkMode := isDarkMode st;
     showAnnotations := showAnnotations st |}.

Definition setInfographicData (v : option (list InfographicItem.t)) (st : t) : t :=
  {| view := view st;
     visualizerType := visualizerType st;
     inputText := inputText st;
     summary := summary st;
     graphData := graphData st;
     infographicData := v;
     isSummarizing := isSummarizing st;
     isGeneratingGraph := isGeneratingGraph st;
     isGeneratingInfographic := isGeneratingInfographic st;
     error := error st;
     isDarkMode := isDarkMode st;
     showAnnotations := showAnnotations st |}.

Definition setIsSummarizing (v : bool) (st : t) : t :=
  {| view := view st;
     visualizerType := visualizerType st;
     inputText := inputText st;
     summary := summary st;
     graphData := graphData st;
     infographicData := infographicData st;
     isSummarizing := v;
     isGeneratingGraph := isGeneratingGraph st;
     isGeneratingInfographic := isGeneratingInfographic st;
     error := error st;
     isDarkMode := isDarkMode st;
     showAnnotations := showAnnotations st |}.

Definition setIsGeneratingGraph (v : bool) (st : t) : t :=
  {| view := view st;
     visualizerType := visualizerType st;
     inputText := inputText st;
     summary := summary st;
     graphData := graphData st;
     infographicData := infographicData st;
     isSummarizing := isSummarizing st;
     isGeneratingGraph := v;
     isGeneratingInfographic := isGeneratingInfographic st;
     error := error st;
     isDarkMode := isDarkMode st;
     showAnnotations := showAnnotations st |}.

Definition setIsGeneratingInfographic (v : bool) (st : t) : t :=
  {| view := view st;
     visualizerType := visualizerType st;
     inputText := inputText st;
     summary := summary st;
     graphData := graphData st;
     infographicData := infographicData st;
     isSummarizing := isSummarizing st;
     isGeneratingGraph := isGeneratingGraph st;
     isGeneratingInfographic := v;
     error := error st;
     isDarkMode := isDarkMode st;
     showAnnotations := showAnnotations st |}.

Definition setError (v : option string) (st : t) : t :=
  {| view := view st;
     visualizerType := visualizerType st;
     inputText := inputText st;
     summary := summary st;
     graphData := graphData st;
     infographicData := infographicData st;
     isSummarizing := isSummarizing st;
     isGeneratingGraph := isGeneratingGraph st;
     isGeneratingInfographic := isGeneratingInfographic st;
     error := v;
     isDarkMode := isDarkMode st;
     showAnnotations := showAnnotations st |}.

Definition setIsDarkMode (v : bool) (st : t) : t :=
  {| view := view st;
     visualizerType := visualizerType st;
     inputText := inputText st;
     summary := summary st;
     graphData := graphData st;
     infographicData := infographicData st;
     isSummarizing := isSummarizing st;
     isGeneratingGraph := isGeneratingGraph st;
     isGeneratingInfographic := isGeneratingInfographic st;
     error := error st;
     isDarkMode := v;
     showAnnotations := showAnnotations st |}.

Definition setShowAnnotations (v : bool) (st : t) : t :=
  {| view := view st;
     visualizerType := visualizerType st;
     inputText := inputText st;
     summary := summary st;
     graphData := graphData st;
     infographicData := infographicData st;
     isSummarizing := isSummarizing st;
     isGeneratingGraph := isGeneratingGraph st;
     isGeneratingInfographic := isGeneratingInfographic st;
     error := error st;
     isDarkMode := isDarkMode st;
     showAnnotations := v |}.

End AppState.

Module Handlers.
Import AppState.

Section Handlers.

(** [JSON.parse] and the casts [as GraphData], [as InfographicItem[]]. *)
Variable parseGraph : string → option GraphData.t.
Variable parseItems : string → option (list InfographicItem.t).

Definition blank_input_error : string := "Vui lòng nhập nội dung để tóm tắt.".
Definition summarize_error : string :=
  "Có lỗi xảy ra khi tóm tắt. Vui lòng thử lại.".
Definition mindmap_error : string :=
  "Có lỗi xảy ra khi tạo sơ đồ. Vui lòng thử lại.".
Definition infographic_error : string :=
  "Có lỗi xảy ra khi tạo infographic. Vui lòng thử lại.".

(** [handleSummarize] up to its [await]. *)
Definition handleSummarize (st : t) : t :=
  if JSString.is_blank (inputText st)
  then setError (Some blank_input_error) st
  else setIsSummarizing true (setError None st).

(** [handleSummarize] from the [await] on, the call having settled. *)
Definition summarize_settled (response : outcome (option string)) (st : t)
  : t :=
  setIsSummarizing false
    match GeminiService.summarizeText response with
    | Resolved result => setSummary result st
    | Rejected => setError (Some summarize_error) st
    end.

(** [handleCreateMindMap] up to its [await]; with a graph in the state
    there is no [await] and the handler runs to its end. *)
Definition handleCreateMindMap (st : t) : t :=
  if JS.truthy_string (summary st) then
    let st := setError None (setIsGeneratingGraph true st) in
    match graphData st with
    | None => st
    | Some _ =>
        setIsGeneratingGraph false
          (setView visualizer (setVisualizerType App.mindmap st))
    end
  else st.

(** [handleCreateMindMap] from the [await] on; [oid] is the identity of
    the object [JSON.parse] made. *)
Definition mindmap_settled (oid : positive)
    (response : outcome (option string)) (st : t) : t :=
  setIsGeneratingGraph false
    match GeminiService.generateMindMapData parseGraph response with
    | Resolved data =>
        setView visualizer
          (setVisualizerType App.mindmap
             (setGraphData (Some {| JS.oid := oid; JS.contents := data |}) st))
    | Rejected => setError (Some mindmap_error) st
    end.

(** [handleCreateInfographic] up to its [await]. *)
Definition handleCreateInfographic (st : t) : t :=
  if JS.truthy_string (summary st) then
    let st := setError None (setIsGeneratingInfographic true st) in
    match infographicData st with
    | None => st
    | Some _ =>
        setIsGeneratingInfographic false
          (setView visualizer (setVisualizerType App.infographic st))
    end
  else st.

(** [handleCreateInfographic] from the [await] on. *)
Definition infographic_settled (response : outcome (option string)) (st : t)
  : t :=
  setIsGeneratingInfographic false
    match GeminiService.generateInfographicData parseItems response with
    | Resolved data =>
        setView visualizer
          (setVisualizerType App.infographic
             (setInfographicData (Some data) st))
    | Rejected => setError (Some infographic_error) st
    end.

(** [handleEdit] and the back button. *)
Definition handleEdit (st : t) : t := setView input st.

(** What can happen to the page. *)
Inductive event :=
| ChangeInput (text : string)
| ToggleDarkMode
| ToggleAnnotations
| ClickSummarize
| SummarizeSettled (response : outcome (option string))
| ClickCreateMindMap
| MindMapSettled (oid : positive) (response : outcome (option string))
| ClickCreateInfographic
| InfographicSettled (response : outcome (option string))
| ClickEdit
| ClickBack
| ClickDownload
| ClickShare.

Definition on_input (st : t) : bool :=
  match view st with input => true | visualizer => false end.

Definition on_visualizer (st : t) : bool := negb (on_input st).

(** An event can happen when its button is on the current screen and not
    disabled, or when the call it settles is under way. The text can
    change at any time: the file reader calls back later. *)
Definition enabled (st : t) (ev : event) : bool :=
  match ev with
  | ChangeInput _ | ToggleDarkMode => true
  | ToggleAnnotations | ClickEdit | ClickBack | ClickDownload | ClickShare =>
      on_visualizer st
  | ClickSummarize =>
      on_input st
      && negb (isSummarizing st || negb (JS.truthy_string (inputText st)))
  | SummarizeSettled _ => isSummarizing st
  | ClickCreateMindMap =>
      on_input st && JS.truthy_string (summary st)
      && negb (isGeneratingGraph st)
  | MindMapSettled _ _ => isGeneratingGraph st
  | ClickCreateInfographic =>
      on_input st && JS.truthy_string (summary st)
      && negb (isGeneratingInfographic st)
  | InfographicSettled _ => isGeneratingInfographic st
  end.

Definition handle (ev : event) (st : t) : t :=
  match ev with
  | ChangeInput text => setInputText text st
  | ToggleDarkMode => setIsDarkMode (negb (isDarkMode st)) st
  | ToggleAnnotations => setShowAnnotations (negb (showAnnotations st)) st
  | ClickSummarize => handleSummarize st
  | SummarizeSettled response => summarize_settled response st
  | ClickCreateMindMap => handleCreateMindMap st
  | MindMapSettled oid response => mindmap_settled oid response st
  | ClickCreateInfographic => handleCreateInfographic st
  | InfographicSettled response => infographic_settled response st
  | ClickEdit | ClickBack => handleEdit st
  | ClickDownload | ClickShare => st
  end.

Definition step (st : t) (ev : event) : option t :=
  if enabled st ev then Some (handle ev st) else None.

Fixpoint steps (st : t) (evs : list event) : option t :=
  match evs with
  | [] => Some st
  | ev :: evs => st' ← step st ev; steps st' evs
  end.

Inductive reachable : t → Prop :=
| reachable_initial : reachable initial
| reachable_step st ev st' :
    reachable st → step st ev = Some st' → reachable st'.

End Handlers.

(** The props [App] gives to [MindMapGraph], when it renders one. *)
Definition mindmap_props (st : t) : option Props.t :=
  match view st, visualizerType st, graphData st with
  | visualizer, App.mindmap, Some g =>
      Some {| Props.data := g;
              Props.width_opt := None; Props.height_opt := None;
              Props.isDarkMode_opt := Some (isDarkMode st);
              Props.showLabels_opt := Some (showAnnotations st) |}
  | _, _, _ => None
  end.

(** The cards [App] shows, when it renders [InfographicView]. *)
Definition infographic_cards (st : t) : option (list InfographicView.card) :=
  match view st, visualizerType st, infographicData st with
  | visualizer, App.infographic, Some data =>
      Some (InfographicView.render (showAnnotations st) data)
  | _, _, _ => None
  end.

(** *** The download

    The [<svg>] elements of the visualiser screen: each icon of
    [@heroicons/react] is one, [MindMapGraph] returns one, and a card of
    [InfographicView] has its icon twice. *)
Inductive svg_element :=
| Heroicon (name : string)
| MindMapSvg (s : Svg.svg)
| CardIcon (v : InfographicView.value).

(** In document order, with [s] what the mounted [MindMapGraph] shows. *)
Definition visualizer_svgs (st : t) (s : Svg.svg) : list svg_element :=
  [Heroicon "SparklesIcon";
   Heroicon (if isDarkMode st then "SunIcon" else "MoonIcon")]
  ++ match mindmap_props st with
     | Some _ => [MindMapSvg s]
     | None => []
     end
  ++ match infographic_cards st with
     | Some cards =>
         flat_map (fun c => [CardIcon (InfographicView.card_icon c);
                             CardIcon (InfographicView.card_icon c)]) cards
     | None => []
     end
  ++ [Heroicon "ArrowDownTrayIcon"; Heroicon "ShareIcon";
      Heroicon "PencilSquareIcon"; Heroicon "ChevronLeftIcon"].

Inductive file_content :=
| Serialized (element : svg_element)
| Text (content : string).

Record file := {
  file_name : string;
  file_type : string;
  file_body : file_content
}.

(** The section of one item in the text download. *)
Definition download_section (item : InfographicItem.t) : string :=
  "## " +:+ InfographicItem.title item +:+ JSString.newline
  +:+ "(" +:+ InfographicItem.icon item +:+ ")" +:+ JSString.newline
  +:+ InfographicItem.description item +:+ JSString.newline.

Definition download_text (data : list InfographicItem.t) : string :=
  JSString.join JSString.newline (map download_section data).

(** [handleDownload]; [svgs] are the [<svg>] elements of the document in
    document order, of which [document.querySelector('svg')] is the
    first. *)
Definition handleDownload (st : t) (svgs : list svg_element) : option file :=
  match visualizerType st with
  | App.mindmap =>
      match svgs with
      | svg :: _ =>
          Some {| file_name := "sodo-tuduy-gemini.svg";
                  file_type := "image/svg+xml;charset=utf-8";
                  file_body := Serialized svg |}
      | [] => None
      end
  | App.infographic =>
      match infographicData st with
      | Some data =>
          Some {| file_name := "infographic-gemini.md";
                  file_type := "text/markdown;charset=utf-8";
                  file_body := Text (download_text data) |}
      | None => None
      end
  end.

End Handlers.

Module SampleApp.
Import AppState.

Definition parseGraph (s : string) : option GraphData.t :=
  if bool_decide (s = "graph") then Some (Props.graph Sample.chain) else None.

Definition item (t d k : string) : InfographicItem.t :=
  {| InfographicItem.title := t; InfographicItem.description := d;
     InfographicItem.icon := k |}.

Definition parseItems (s : string) : option (list InfographicItem.t) :=
  if bool_decide (s = "items")
  then Some [item "Growth" "Up" "chart"; item "Idea" "New" "bulb"]
  else None.

(** Type a text, summarise it, ask for the mind map. *)
Definition to_mindmap : list Handlers.event :=
  [Handlers.ChangeInput "some text"; Handlers.ClickSummarize;
   Handlers.SummarizeSettled (Resolved (Some "short"));
   Handlers.ClickCreateMindMap;
   Handlers.MindMapSettled 7 (Resolved (Some "graph"))].

Definition showing_mindmap : t :=
  default initial (Handlers.steps parseGraph parseItems initial to_mindmap).

(** A text of blanks only, typed into the fresh page. *)
Definition blank_typed : t := setInputText "   " initial.

End SampleApp.

(** What every state of the page satisfies: a generation is under way
    only while its result is missing and a summary is there, and what the
    visualiser is set to show exists. *)
Definition app_invariant (st : AppState.t) : Prop :=
  (AppState.isGeneratingGraph st = true →
   AppState.graphData st = None ∧ AppState.summary st ≠ "") ∧
  (AppState.isGeneratingInfographic st = true →
   AppState.infographicData st = None ∧ AppState.summary st ≠ "") ∧
  (AppState.view st = AppState.visualizer →
   AppState.visualizerType st = App.mindmap →
   is_Some (AppState.graphData st)) ∧
  (AppState.visualizerType st = App.infographic →
   is_Some (AppState.infographicData st)) ∧
  (AppState.view st = AppState.visualizer → AppState.summary st ≠ "").

(** The event settles a call that failed: the request was rejected, came
    without text, or its text could not be parsed. *)
Definition call_failed (parseGraph : string → option GraphData.t)
    (parseItems : string → option (list InfographicItem.t))
    (ev : Handlers.event) : Prop :=
  match ev with
  | Handlers.SummarizeSettled response =>
      GeminiService.summarizeText response = Rejected
  | Handlers.MindMapSettled _ response =>
      GeminiService.generateMindMapData parseGraph response = Rejected
  | Handlers.InfographicSettled response =>
      GeminiService.generateInfographicData parseItems response = Rejected
  | _ => False
  end.

(** The message the [catch] of the handler of that call sets. *)
Definition failure_message (ev : Handlers.event) : option string :=
  match ev with
  | Handlers.SummarizeSettled _ => Some Handlers.summarize_error
  | Handlers.MindMapSettled _ _ => Some Handlers.mindmap_error
  | Handlers.InfographicSettled _ => Some Handlers.infographic_error
  | _ => None
  end.

(** Back to the input screen, a new text, a new summary, and the mind
    map again. *)
Definition summarize_again : list Handlers.event :=
  [Handlers.ClickEdit; Handlers.ChangeInput "another text";
   Handlers.ClickSummarize;
   Handlers.SummarizeSettled (Resolved (Some "another summary"));
   Handlers.ClickCreateMindMap].

(** The page while the mind map is being generated. *)
Definition awaiting_mindmap : AppState.t :=
  default AppState.initial
    (Handlers.steps SampleApp.parseGraph SampleApp.parseItems
       AppState.initial (take 4 SampleApp.to_mindmap)).



(** * Properties *)

(** Two numbers that [===] tells apart are different: closes a goal
    [a <> b] on two given numbers. *)
Ltac float_neq :=
  let H := fresh in
  intros H;
  match type of H with
  | ?a = ?b =>
      cut (JS.strict_eq a b = true);
      [vm_compute; discriminate | rewrite H; reflexivity]
  end.

(** ** The radius and colour scales *)

Lemma getRadius_cases (g : option JS.number) :
  getRadius g = 50%float ∨ getRadius g = 35%float ∨ getRadius g = 25%float.
Proof.
  unfold getRadius. destruct (JS.strict_eq _ 1); [by left|].
  destruct (JS.strict_eq _ 2); [right; by left|right; by right].
Qed.

Lemma getRadius_table :
  getRadius (Some 1%float) = 50%float ∧
  getRadius (Some 2%float) = 35%float ∧
  getRadius (Some 3%float) = 25%float ∧
  getRadius None = 35%float.
Proof. repeat split. Qed.

Lemma getRadius_other (g : JS.number) :
  JS.strict_eq g 1 = false → JS.strict_eq g 2 = false →
  getRadius (Some g) = 25%float.
Proof. unfold getRadius; simpl. by intros -> ->. Qed.

Lemma getColor_other (dark : bool) (g : JS.number) :
  JS.strict_eq g 1 = false → JS.strict_eq g 2 = false →
  getColor dark (Some g) = getColor dark (Some 3%float).
Proof. unfold getColor; simpl. by intros -> ->. Qed.

Lemma getColor_cases (dark : bool) (g : option JS.number) :
  getColor dark g = getColor dark (Some 1%float) ∨
  getColor dark g = getColor dark (Some 2%float) ∨
  getColor dark g = getColor dark (Some 3%float).
Proof.
  unfold getColor. destruct (JS.strict_eq (default _ g) 1); [by left|].
  destruct (JS.strict_eq (default _ g) 2); [right; by left|right; by right].
Qed.

(** C2, as amended: the collision force uses the one radius 60 for every
    node, whatever its group, so the least distance it keeps between the
    centres of any two nodes is 120; the visual radius of a node is 50 for
    the root, 35 for a branch and 25 for a leaf, and 120 is at least the
    sum of the visual radii of any two nodes. *)
Theorem collide_radius_fixed (p : Props.t) (a b : SimulationNode.t) :
  Forces.collide_radius (forces p) a = 60%float ∧
  collide_distance (forces p) a b = 120%float ∧
  (getRadius (category_group root) = 50%float ∧
   getRadius (category_group branch) = 35%float ∧
   getRadius (category_group leaf) = 25%float) ∧
  (getRadius (SimulationNode.group a) + getRadius (SimulationNode.group b)
     <=? collide_distance (forces p) a b)%float = true.
Proof.
  repeat split.
  unfold collide_distance; simpl.
  destruct (getRadius_cases (SimulationNode.group a)) as [->|[->| ->]];
    destruct (getRadius_cases (SimulationNode.group b)) as [->|[->| ->]];
    reflexivity.
Qed.

(** C2, as stated, fails: the collision radius of a leaf is 60, not its
    visual radius 25. *)
Lemma collide_radius_not_getRadius :
  ¬ (∀ (p : Props.t) (n : SimulationNode.t),
       Forces.collide_radius (forces p) n
       = getRadius (SimulationNode.group n)).
Proof.
  intros H. specialize (H Sample.chain Sample.unplaced_leaf).
  revert H. vm_compute. float_neq.
Qed.

(** C3, as amended: in each theme the root, branch and leaf colours are
    pairwise different; there is no fourth colour: a node without a group
    is stroked with the branch colour and every node gets one of the
    three. *)
Theorem getColor_three_hues (dark : bool) :
  (getColor dark (category_group root) ≠ getColor dark (category_group branch) ∧
   getColor dark (category_group root) ≠ getColor dark (category_group leaf) ∧
   getColor dark (category_group branch) ≠ getColor dark (category_group leaf)) ∧
  getColor dark (category_group no_group)
    = getColor dark (category_group branch) ∧
  (∀ g : option JS.number,
     getColor dark g = getColor dark (category_group root) ∨
     getColor dark g = getColor dark (category_group branch) ∨
     getColor dark g = getColor dark (category_group leaf)).
Proof.
  split; [|split].
  - by destruct dark.
  - reflexivity.
  - apply getColor_cases.
Qed.

(** C3, as stated, fails: a node without a group and a branch get the same
    colour. *)
Lemma getColor_no_group_is_branch :
  ¬ (∀ (dark : bool) (c1 c2 : category), c1 ≠ c2 →
       getColor dark (category_group c1) ≠ getColor dark (category_group c2)).
Proof. intros H. by apply (H false branch no_group). Qed.

(** ** The title above the mind map *)

Lemma find_is_root_None (l : list NodeData.t) :
  (∀ n, n ∈ l → App.is_root n = false) → List.find App.is_root l = None.
Proof.
  induction l as [|n l IH]; intros Hl; [done|]. simpl.
  rewrite (Hl n) by left. apply IH. intros m Hm. apply Hl. by right.
Qed.

Lemma or_string_nonempty (s : option string) (d : string) :
  d ≠ "" → JS.or_string s d ≠ "".
Proof. intros Hd. destruct s as [[|a s]|]; simpl; done. Qed.

(** Whatever the graph, the title is not the empty string: an empty root
    label gives way to the fallback as well. *)
Lemma title_nonempty (g : GraphData.t) : App.title g ≠ "".
Proof. apply or_string_nonempty. done. Qed.

(** C4: when no node of the graph has [group === 1], the heading of the
    mind map is drawn and its text is the fallback "Chủ đề chính", which
    is not empty. *)
Theorem title_fallback_without_root (g : GraphData.t) :
  (∀ n, n ∈ GraphData.nodes g → App.is_root n = false) →
  App.heading App.mindmap (Some g) = Some App.fallback_title ∧
  App.title g = App.fallback_title ∧
  App.title g ≠ "".
Proof.
  intros Hg.
  assert (App.title g = App.fallback_title) as Ht.
  { unfold App.title. by rewrite find_is_root_None. }
  split; [|split].
  - simpl. by rewrite Ht.
  - exact Ht.
  - apply title_nonempty.
Qed.

Lemma title_fallback_without_root_witness :
  (∀ n, n ∈ GraphData.nodes Sample.rootless → App.is_root n = false) ∧
  App.heading App.mindmap (Some Sample.rootless) = Some "Chủ đề chính" ∧
  App.title Sample.rootless = "Chủ đề chính" ∧
  App.title Sample.rootless ≠ "".
Proof.
  assert (∀ n, n ∈ GraphData.nodes Sample.rootless → App.is_root n = false)
    as H.
  { intros n Hn. simpl in Hn.
    repeat (apply elem_of_cons in Hn as [->|Hn]; [reflexivity|]).
    by apply elem_of_nil in Hn. }
  split; [exact H|]. exact (title_fallback_without_root Sample.rootless H).
Defined.

(** ** The icon of a card *)

(** Every key of [IconMap] gives its own glyph. *)
Lemma Icon_recognized (t d : string) :
  let item k := {| InfographicItem.title := t;
                   InfographicItem.description := d;
                   InfographicItem.icon := k |} in
  InfographicView.Icon (item "chart")
    = InfographicView.Component InfographicView.ChartBarIcon ∧
  InfographicView.Icon (item "bulb")
    = InfographicView.Component InfographicView.LightBulbIcon ∧
  InfographicView.Icon (item "users")
    = InfographicView.Component InfographicView.UserGroupIcon ∧
  InfographicView.Icon (item "globe")
    = InfographicView.Component InfographicView.GlobeAltIcon ∧
  InfographicView.Icon (item "time")
    = InfographicView.Component InfographicView.ClockIcon ∧
  InfographicView.Icon (item "shield")
    = InfographicView.Component InfographicView.ShieldCheckIcon ∧
  InfographicView.Icon (item "target")
    = InfographicView.Component InfographicView.TrophyIcon ∧
  InfographicView.Icon (item "default")
    = InfographicView.Component InfographicView.SparklesIcon.
Proof. repeat split. Qed.

(** A key that is neither a key of [IconMap] nor a name defined by
    [Object.prototype] gives the default glyph. *)
Lemma Icon_fallback (item : InfographicItem.t) :
  InfographicView.IconMap !! InfographicItem.icon item = None →
  InfographicItem.icon item ∉ InfographicView.Object_prototype →
  InfographicView.Icon item
    = InfographicView.Component InfographicView.SparklesIcon.
Proof.
  intros Hown Hproto. unfold InfographicView.Icon, InfographicView.get.
  rewrite Hown. by rewrite bool_decide_eq_false_2.
Qed.

Lemma Icon_unknown_key :
  InfographicView.Icon {| InfographicItem.title := "t";
                          InfographicItem.description := "d";
                          InfographicItem.icon := "unknown-key" |}
    = InfographicView.Component InfographicView.SparklesIcon.
Proof.
  apply Icon_fallback; [reflexivity|].
  refine (proj1 (bool_decide_eq_false _) _). reflexivity.
Qed.

(** C5 at the item whose icon key is ["constructor"]: the key is not a key
    of [IconMap], yet the lookup finds [Object.prototype.constructor], a
    truthy value, so the [||] does not fall back and the card's element
    type is not the default glyph. *)
Theorem Icon_constructor_not_default :
  let item := {| InfographicItem.title := "t";
                 InfographicItem.description := "d";
                 InfographicItem.icon := "constructor" |} in
  InfographicView.IconMap !! InfographicItem.icon item = None ∧
  InfographicView.Icon item = InfographicView.Inherited "constructor" ∧
  InfographicView.card_icon (InfographicView.render_card true 0 item)
    ≠ InfographicView.Component InfographicView.SparklesIcon.
Proof. repeat split. discriminate. Qed.

(** ** The rendered nodes and links *)

(** One glyph per node of the state, in the order of the state. *)
Lemma render_draws_every_node (p : Props.t)
    (nodes : list SimulationNode.t) (links : list SimulationLink.t) :
  map Svg.glyph_key (Svg.node_group (render p nodes links))
  = map SimulationNode.id nodes.
Proof. simpl. rewrite map_map. reflexivity. Qed.

Lemma render_node_in (p : Props.t)
    (nodes : list SimulationNode.t) (links : list SimulationLink.t)
    (n : SimulationNode.t) :
  n ∈ nodes → render_node p n ∈ Svg.node_group (render p nodes links).
Proof. intros Hn. simpl. by apply list_elem_of_fmap_2. Qed.

(** A coordinate the engine has not written defaults to the centre. *)
Lemma render_node_translate (p : Props.t) (n : SimulationNode.t) :
  (SimulationNode.x n = None →
   (Svg.translate (render_node p n)).1 = (Props.width p / 2)%float) ∧
  (SimulationNode.y n = None →
   (Svg.translate (render_node p n)).2 = (Props.height p / 2)%float).
Proof. split; intros H; simpl; by rewrite H. Qed.

(** A link with an end that is still an id is answered with [null]. *)
Lemma render_link_unresolved (p : Props.t) (nodes : list SimulationNode.t)
    (i : nat) (link : SimulationLink.t) (s : string) :
  SimulationLink.source link = Id s ∨ SimulationLink.target link = Id s →
  render_link p nodes i link = None.
Proof.
  unfold render_link. intros [H|H]; rewrite H; [done|].
  by destruct (SimulationLink.source link).
Qed.




(** ** Re-rendering *)

Lemma Object_is_refl (a : JS.number) : JS.Object_is a a = true.
Proof. by apply FloatAxioms.Leibniz.eqb_spec. Qed.

Lemma Object_is_eq (a b : JS.number) : JS.Object_is a b = true ↔ a = b.
Proof. apply FloatAxioms.Leibniz.eqb_spec. Qed.

Lemma with_props_same (c : Instance.t) :
  Instance.with_props (Instance.props c) c = c.
Proof. by destruct c. Qed.

(** The effect is run again exactly when the identity of [data], the
    width or the height differs from the last render. *)
Lemma deps_changed_false (old new : Props.t) :
  deps_changed old new = false ↔
  JS.oid (Props.data old) = JS.oid (Props.data new) ∧
  Props.width old = Props.width new ∧
  Props.height old = Props.height new.
Proof.
  unfold deps_changed, JS.same_object.
  rewrite negb_false_iff, !andb_true_iff, bool_decide_eq_true, !Object_is_eq.
  tauto.
Qed.

Lemma deps_changed_refl (p : Props.t) : deps_changed p p = false.
Proof. by apply deps_changed_false. Qed.

Lemma update_unchanged (e : Engine.t) (p : Props.t) (c : Instance.t) :
  deps_changed (Instance.props c) p = false →
  update e p c = inr (Instance.with_props p c).
Proof. unfold update. by intros ->. Qed.

Lemma update_changed (e : Engine.t) (p : Props.t) (c : Instance.t) :
  deps_changed (Instance.props c) p = true →
  update e p c = effect e p (Instance.cleanup c).
Proof. unfold update. by intros ->. Qed.

Lemma same_snapshot_render_node (p : Props.t) (a b : SimulationNode.t) :
  same_snapshot a b → render_node p a = render_node p b.
Proof.
  intros (Hid & Hlabel & Hgroup & Hx & Hy). unfold render_node.
  by rewrite Hid, Hlabel, Hgroup, Hx, Hy.
Qed.

Lemma same_snapshot_position (ns ns' : list SimulationNode.t) (e : endpoint) :
  Forall2 same_snapshot ns ns' → position ns e = position ns' e.
Proof.
  intros H. destruct e as [s|a]; [done|]. simpl.
  destruct (ns !! a) as [n|] eqn:Hn.
  - destruct (Forall2_lookup_l _ _ _ _ _ H Hn) as (n' & -> & Hs). simpl.
    destruct Hs as (_ & _ & _ & -> & ->). reflexivity.
  - destruct (ns' !! a) as [n'|] eqn:Hn'; [|done].
    destruct (Forall2_lookup_r _ _ _ _ _ H Hn') as (n & Hn'' & _). congruence.
Qed.

Lemma same_snapshot_render_link (p : Props.t)
    (ns ns' : list SimulationNode.t) (i : nat) (link : SimulationLink.t) :
  Forall2 same_snapshot ns ns' →
  render_link p ns i link = render_link p ns' i link.
Proof.
  intros H. unfold render_link.
  destruct (SimulationLink.source link) as [|s]; [done|].
  destruct (SimulationLink.target link) as [|t]; [done|].
  by rewrite !(same_snapshot_position ns ns' _ H).
Qed.

(** The output depends on the snapshot only. *)
Lemma same_snapshot_render (p : Props.t) (ns ns' : list SimulationNode.t)
    (links : list SimulationLink.t) :
  Forall2 same_snapshot ns ns' → render p ns links = render p ns' links.
Proof.
  intros H. unfold render. f_equal.
  - apply imap_ext. intros i link _. by apply same_snapshot_render_link.
  - induction H as [|a b ns ns' Hab _ IH]; [done|]. simpl.
    by rewrite (same_snapshot_render_node p a b Hab), IH.
Qed.

(** C8: rendering an instance again with the props it has leaves the
    instance as it is (no effect runs, no state is written), and any
    snapshot with the same node identities, labels, groups and positions,
    the same links, theme and label switch is rendered to the very same
    SVG, whatever the engine keeps in its own fields. *)
Theorem render_idempotent (e : Engine.t) (c : Instance.t)
    (ns' : list SimulationNode.t) :
  Forall2 same_snapshot (Instance.nodes c) ns' →
  update e (Instance.props c) c = inr c ∧
  render (Instance.props c) ns' (Instance.links c) = view c.
Proof.
  intros H. split.
  - rewrite update_unchanged by apply deps_changed_refl.
    by rewrite with_props_same.
  - symmetry. by apply same_snapshot_render.
Qed.

Lemma render_idempotent_witness :
  let c := Sample.mounted Sample.single in
  Forall2 same_snapshot (Instance.nodes c) [Sample.moving_root] ∧
  update Sample.engine (Instance.props c) c = inr c ∧
  render (Instance.props c) [Sample.moving_root] (Instance.links c) = view c.
Proof.
  assert (Forall2 same_snapshot
            (Instance.nodes (Sample.mounted Sample.single))
            [Sample.moving_root]) as H.
  { repeat constructor. }
  split; [exact H|].
  exact (render_idempotent Sample.engine (Sample.mounted Sample.single)
           [Sample.moving_root] H).
Defined.

(** ** The label switch *)


Lemma set_showLabels_render_link (b : option bool) (p : Props.t)
    (nodes : list SimulationNode.t) (i : nat) (link : SimulationLink.t) :
  render_link (Props.set_showLabels b p) nodes i link
  = render_link p nodes i link.
Proof. reflexivity. Qed.

Lemma set_showLabels_render_node (b : option bool) (p : Props.t)
    (n : SimulationNode.t) :
  Svg.without_label (render_node (Props.set_showLabels b p) n)
  = Svg.without_label (render_node p n).
Proof. reflexivity. Qed.


(** ** The empty graph *)

(** With no node in the graph the effect returns at once: whatever the
    instance, no state is written and no simulation is created. *)
Lemma effect_empty (e : Engine.t) (p : Props.t) (c : Instance.t) :
  GraphData.nodes (Props.graph p) = [] →
  effect e p c = inr (Instance.with_props p c).
Proof. unfold effect. by intros ->. Qed.

(** With a node in the graph, an effect that comes to its end has placed
    the copies of the nodes and created a simulation with the forces of
    the props. *)
Lemma effect_sets_simulation_up (e : Engine.t) (p : Props.t)
    (c c' : Instance.t) :
  GraphData.nodes (Props.graph p) ≠ [] →
  effect e p c = inr c' →
  Instance.props c' = p ∧
  Instance.simulation c' = Some (forces p) ∧
  Instance.nodes c'
  = D3.initializeNodes e
      (map SimulationNode.of_data (GraphData.nodes (Props.graph p))).
Proof.
  unfold effect. intros Hn.
  destruct (GraphData.nodes (Props.graph p)) as [|n ns]; [done|].
  destruct (D3.initializeLinks _ _ _) as [err|resolved]; [done|].
  intros [= <-]. done.
Qed.



(** ** Links to unknown nodes *)

Lemma nodeById_foldl (s : string) (l : list (nat * SimulationNode.t))
    (m : gmap string nat) :
  m !! s = None →
  (∀ i n, (i, n) ∈ l → SimulationNode.id n ≠ s) →
  foldl (fun m '(i, n) => <[SimulationNode.id n := i]> m) m l !! s = None.
Proof.
  revert m. induction l as [|[i n] l IH]; intros m Hm Hl; [done|]. simpl.
  apply IH.
  - rewrite lookup_insert_ne; [done|]. apply (Hl i n). by left.
  - intros j k Hjk. apply (Hl j k). by right.
Qed.

(** An id that no node has is not in the map the link force builds. *)
Lemma nodeById_None (s : string) (nodes : list SimulationNode.t) :
  (∀ n, n ∈ nodes → SimulationNode.id n ≠ s) →
  D3.nodeById nodes !! s = None.
Proof.
  intros H. apply nodeById_foldl; [done|].
  intros i n Hin. apply list_elem_of_lookup in Hin as [j Hj].
  rewrite list_lookup_imap in Hj.
  destruct (nodes !! j) as [k|] eqn:Hk; simplify_eq/=.
  apply H. by eapply list_elem_of_lookup_2.
Qed.

Lemma initializeNodes_ids (e : Engine.t) (nodes : list SimulationNode.t)
    (n : SimulationNode.t) :
  n ∈ D3.initializeNodes e nodes →
  ∃ k, k ∈ nodes ∧ SimulationNode.id n = SimulationNode.id k.
Proof.
  intros Hn. apply list_elem_of_lookup in Hn as [j Hj].
  unfold D3.initializeNodes in Hj. rewrite list_lookup_imap in Hj.
  destruct (nodes !! j) as [k|] eqn:Hk; simplify_eq/=.
  exists k. split; [by eapply list_elem_of_lookup_2|done].
Qed.

(** The link force's [initialize] throws as soon as a link has an end
    whose id the map lacks. *)
Lemma initializeLinks_throws (m : gmap string nat)
    (links : list SimulationLink.t) (link : SimulationLink.t) (s : string) :
  link ∈ links →
  SimulationLink.source link = Id s ∨ SimulationLink.target link = Id s →
  m !! s = None →
  ∀ i, ∃ nodeId, D3.initializeLinks m i links = inl (NodeNotFound nodeId).
Proof.
  intros Hin Hend Hs. induction Hin as [link links|link k links _ IH];
    intros i; simpl.
  - destruct Hend as [H|H]; rewrite H; simpl.
    + rewrite Hs. by eexists.
    + destruct (D3.find m (SimulationLink.source link)) as [[id]|?];
        [by eexists|].
      rewrite Hs. by eexists.
  - destruct (D3.find m (SimulationLink.source k)) as [[id]|?];
      [by eexists|].
    destruct (D3.find m (SimulationLink.target k)) as [[id]|?];
      [by eexists|].
    destruct (IH Hend (S i)) as [id ->]. by eexists.
Qed.

(** C1 does not hold of the set-up: for a graph with at least one node
    and a link whose source or target is the id of no node, the effect
    hands the link to the link force as it is, the force's [initialize]
    throws "node not found", and the effect ends with that exception
    instead of dropping the link. *)
Theorem dangling_link_throws (e : Engine.t) (p : Props.t) (l : LinkData.t) :
  GraphData.nodes (Props.graph p) ≠ [] →
  l ∈ GraphData.links (Props.graph p) →
  (∀ n, n ∈ GraphData.nodes (Props.graph p) →
        NodeData.id n ≠ LinkData.source l) ∨
  (∀ n, n ∈ GraphData.nodes (Props.graph p) →
        NodeData.id n ≠ LinkData.target l) →
  ∃ nodeId,
    mount e p = inl (NodeNotFound nodeId) ∧
    ∀ c, effect e p c = inl (NodeNotFound nodeId).
Proof.
  intros Hnodes Hl Hend.
  set (placed := D3.initializeNodes e
         (map SimulationNode.of_data (GraphData.nodes (Props.graph p)))).
  assert (∃ s, (SimulationLink.source (SimulationLink.of_data l) = Id s ∨
                SimulationLink.target (SimulationLink.of_data l) = Id s) ∧
               D3.nodeById placed !! s = None) as (s & Hs & Hnone).
  { assert (∀ s, (∀ n, n ∈ GraphData.nodes (Props.graph p) →
                       NodeData.id n ≠ s) →
                 D3.nodeById placed !! s = None) as Hmiss.
    { intros s Hs. apply nodeById_None. intros n Hn.
      apply initializeNodes_ids in Hn as (k & Hk & ->).
      apply list_elem_of_fmap in Hk as (d & -> & Hd). simpl. by apply Hs. }
    destruct Hend as [H|H].
    - exists (LinkData.source l). split; [by left|by apply Hmiss].
    - exists (LinkData.target l). split; [by right|by apply Hmiss]. }
  destruct (initializeLinks_throws (D3.nodeById placed)
              (map SimulationLink.of_data (GraphData.links (Props.graph p)))
              (SimulationLink.of_data l) s) with (i := 0) as [nodeId Hthrow];
    [by apply list_elem_of_fmap_2|done|done|].
  exists nodeId.
  assert (∀ c, effect e p c = inl (NodeNotFound nodeId)) as Heffect.
  { intros c. unfold effect.
    destruct (GraphData.nodes (Props.graph p)) as [|n ns] eqn:Hn; [done|].
    fold placed. by rewrite Hthrow. }
  split; [apply Heffect|exact Heffect].
Qed.

Lemma dangling_link_throws_witness :
  (GraphData.nodes (Props.graph Sample.dangling) ≠ [] ∧
   Sample.link "x" "missing" ∈ GraphData.links (Props.graph Sample.dangling) ∧
   (∀ n, n ∈ GraphData.nodes (Props.graph Sample.dangling) →
         NodeData.id n ≠ "missing")) ∧
  ∃ nodeId,
    mount Sample.engine Sample.dangling = inl (NodeNotFound nodeId) ∧
    ∀ c, effect Sample.engine Sample.dangling c = inl (NodeNotFound nodeId).
Proof.
  assert (∀ n, n ∈ GraphData.nodes (Props.graph Sample.dangling) →
               NodeData.id n ≠ "missing") as H.
  { intros n Hn. simpl in Hn. apply elem_of_cons in Hn as [->|Hn]; [done|].
    by apply elem_of_nil in Hn. }
  split.
  - split; [done|]. split; [by left|exact H].
  - apply (dangling_link_throws Sample.engine Sample.dangling
             (Sample.link "x" "missing")); [done|by left|by right].
Defined.

(** The exception at the sample graph names the missing id, whatever the
    engine. *)
Lemma dangling_sample_throws (e : Engine.t) :
  mount e Sample.dangling = inl (NodeNotFound "missing").
Proof. reflexivity. Qed.

(** The renderer, for its part, would leave such a link out and keep every
    node: had the state held the unresolved link, no line would be drawn
    for it. *)
Lemma unresolved_link_not_drawn (p : Props.t)
    (nodes : list SimulationNode.t) (links : list SimulationLink.t)
    (i : nat) (l : LinkData.t) :
  links !! i = Some (SimulationLink.of_data l) →
  Svg.link_group (render p nodes links) !! i = Some None ∧
  length (Svg.node_group (render p nodes links)) = length nodes.
Proof.
  intros Hi. split.
  - simpl. by rewrite list_lookup_imap, Hi.
  - simpl. by rewrite length_map.
Qed.

(** ** Ticks and tear-down *)

(** A tick writes positions and velocities only: the glyphs keep their
    keys, circles, halos and labels. *)
Lemma tick_keeps_glyphs (e : Engine.t) (c : Instance.t) (a : nat)
    (n : SimulationNode.t) :
  Instance.nodes c !! a = Some n →
  ∃ n', Instance.nodes (tick e c) !! a = Some n' ∧
        SimulationNode.id n' = SimulationNode.id n ∧
        SimulationNode.label n' = SimulationNode.label n ∧
        SimulationNode.group n' = SimulationNode.group n.
Proof.
  intros Ha. unfold tick. destruct (Instance.simulation c) as [f|].
  - simpl. unfold D3.tick. rewrite list_lookup_fmap, Ha. simpl.
    eexists. split; [done|]. unfold D3.tickNode.
    by destruct (Engine.move _ _ _ _ _) as [[? ?] [? ?]].
  - by exists n.
Qed.

(** After the clean-up no tick reaches the state any more. *)
Lemma tick_after_unmount (e : Engine.t) (c : Instance.t) :
  tick e (unmount c) = unmount c.
Proof. reflexivity. Qed.

(** * Further properties of MindMapGraph *)

(** ** The map from ids to node objects *)

Lemma nodeById_foldl_Some (s : string) (l : list (nat * SimulationNode.t))
    (m : gmap string nat) (a : nat) :
  foldl (fun m '(i, n) => <[SimulationNode.id n := i]> m) m l !! s = Some a →
  m !! s = Some a ∨ ∃ n, (a, n) ∈ l ∧ SimulationNode.id n = s.
Proof.
  revert m. induction l as [|[i n] l IH]; intros m H; [by left|].
  simpl in H. apply IH in H as [H|(k & Hk & Hs)].
  - destruct (decide (SimulationNode.id n = s)) as [Heq|Hne].
    + rewrite Heq, lookup_insert_eq in H. injection H as ->.
      right. exists n. split; [by left|done].
    + rewrite lookup_insert_ne in H by done. by left.
  - right. exists k. split; [by right|done].
Qed.

Lemma nodeById_foldl_is_Some (s : string) (l : list (nat * SimulationNode.t))
    (m : gmap string nat) :
  is_Some (m !! s) ∨ (∃ i n, (i, n) ∈ l ∧ SimulationNode.id n = s) →
  is_Some (foldl (fun m '(i, n) => <[SimulationNode.id n := i]> m) m l !! s).
Proof.
  revert m. induction l as [|[i n] l IH]; intros m H; simpl.
  - destruct H as [H|(i & n & Hin & _)]; [done|]. by apply elem_of_nil in Hin.
  - apply IH. destruct H as [H|(j & k & Hin & Hs)].
    + left. destruct (decide (SimulationNode.id n = s)) as [Heq|Hne].
      * rewrite Heq, lookup_insert_eq. by eexists.
      * by rewrite lookup_insert_ne.
    + apply elem_of_cons in Hin as [[= -> ->]|Hin].
      * left. rewrite Hs, lookup_insert_eq. by eexists.
      * right. by exists j, k.
Qed.

Lemma elem_of_imap_pair (nodes : list SimulationNode.t) (a : nat)
    (n : SimulationNode.t) :
  (a, n) ∈ imap pair nodes ↔ nodes !! a = Some n.
Proof.
  rewrite list_elem_of_lookup. split.
  - intros [j Hj]. rewrite list_lookup_imap in Hj.
    destruct (nodes !! j) as [k|] eqn:Hk; by simplify_eq/=.
  - intros Ha. exists a. by rewrite list_lookup_imap, Ha.
Qed.

(** What the map answers is the address of a node with the id asked for. *)
Lemma nodeById_Some (s : string) (nodes : list SimulationNode.t) (a : nat) :
  D3.nodeById nodes !! s = Some a →
  ∃ n, nodes !! a = Some n ∧ SimulationNode.id n = s.
Proof.
  intros H. apply nodeById_foldl_Some in H as [H|(n & Hn & Hs)]; [done|].
  exists n. split; [by apply elem_of_imap_pair|done].
Qed.

(** The map knows the id of every node. *)
Lemma nodeById_is_Some (s : string) (nodes : list SimulationNode.t)
    (n : SimulationNode.t) :
  n ∈ nodes → SimulationNode.id n = s → is_Some (D3.nodeById nodes !! s).
Proof.
  intros Hn Hs. apply nodeById_foldl_is_Some. right.
  apply list_elem_of_lookup in Hn as [a Ha].
  exists a, n. split; [by apply elem_of_imap_pair|done].
Qed.

(** ** The link force's initialisation *)

Lemma initializeLinks_lookup (m : gmap string nat)
    (links r : list SimulationLink.t) (i : nat) :
  D3.initializeLinks m i links = inr r →
  length r = length links ∧
  ∀ j link, links !! j = Some link →
    ∃ s t, D3.find m (SimulationLink.source link) = inr s ∧
           D3.find m (SimulationLink.target link) = inr t ∧
           r !! j = Some {| SimulationLink.source := s;
                            SimulationLink.target := t;
                            SimulationLink.index := Some (i + j) |}.
Proof.
  revert r i. induction links as [|k links IH]; intros r i H; simpl in H.
  - injection H as <-. split; [done|]. intros j link Hj. done.
  - destruct (D3.find m (SimulationLink.source k)) as [|s] eqn:Hs; [done|].
    destruct (D3.find m (SimulationLink.target k)) as [|t] eqn:Ht; [done|].
    destruct (D3.initializeLinks m (S i) links) as [|r'] eqn:Hr; [done|].
    injection H as <-. destruct (IH r' (S i) Hr) as [Hlen Hlk].
    split; [simpl; by rewrite Hlen|].
    intros [|j] link Hj; simpl in Hj.
    + injection Hj as <-. exists s, t. rewrite Nat.add_0_r. done.
    + destruct (Hlk j link Hj) as (s' & t' & Hs' & Ht' & Hr').
      exists s', t'. rewrite Nat.add_succ_r. done.
Qed.

Lemma initializeLinks_ok (m : gmap string nat)
    (links : list SimulationLink.t) (i : nat) :
  (∀ link, link ∈ links →
     (∃ s, D3.find m (SimulationLink.source link) = inr s) ∧
     (∃ t, D3.find m (SimulationLink.target link) = inr t)) →
  ∃ r, D3.initializeLinks m i links = inr r.
Proof.
  revert i. induction links as [|k links IH]; intros i H; simpl.
  - by eexists.
  - destruct (H k) as [[s ->] [t ->]]; [by left|].
    destruct (IH (S i)) as [r ->]; [|by eexists].
    intros link Hl. apply H. by right.
Qed.

Lemma find_Id (m : gmap string nat) (s : string) (e : endpoint) :
  D3.find m (Id s) = inr e ↔ ∃ a, m !! s = Some a ∧ e = NodeRef a.
Proof.
  simpl. destruct (m !! s) as [a|]; split.
  - intros [= <-]. by exists a.
  - intros (b & [= <-] & ->). done.
  - done.
  - by intros (b & ? & _).
Qed.

(** ** Placement *)

Lemma initializeNode_placed (e : Engine.t) (i : nat) (n : SimulationNode.t) :
  placed (D3.initializeNode e i n).
Proof.
  unfold placed, D3.initializeNode. simpl.
  destruct (SimulationNode.fx n), (SimulationNode.fy n),
    (SimulationNode.x n), (SimulationNode.y n); simpl;
    repeat match goal with
           | |- context [PrimFloat.is_nan ?f] => destruct (PrimFloat.is_nan f)
           end; simpl; split; by eexists.
Qed.

Lemma initializeNodes_lookup (e : Engine.t) (nodes : list SimulationNode.t)
    (a : nat) (n : SimulationNode.t) :
  D3.initializeNodes e nodes !! a = Some n →
  ∃ k, nodes !! a = Some k ∧ n = D3.initializeNode e a k.
Proof.
  unfold D3.initializeNodes. rewrite list_lookup_imap.
  destruct (nodes !! a) as [k|]; [|done]. intros [= <-]. by exists k.
Qed.

Lemma initializeNodes_placed (e : Engine.t) (nodes : list SimulationNode.t) :
  Forall placed (D3.initializeNodes e nodes).
Proof.
  apply Forall_lookup. intros a n Ha.
  apply initializeNodes_lookup in Ha as (k & _ & ->).
  apply initializeNode_placed.
Qed.

Lemma placed_node_ids (e : Engine.t) (g : GraphData.t) (s : string) :
  (∃ n, n ∈ D3.initializeNodes e
              (map SimulationNode.of_data (GraphData.nodes g))
        ∧ SimulationNode.id n = s)
  ↔ s ∈ node_ids g.
Proof.
  unfold node_ids. split.
  - intros (n & Hn & <-). apply initializeNodes_ids in Hn as (k & Hk & ->).
    apply list_elem_of_fmap in Hk as (d & -> & Hd). simpl.
    by apply list_elem_of_fmap_2.
  - intros Hs. apply list_elem_of_fmap in Hs as (d & -> & Hd).
    apply list_elem_of_lookup in Hd as [a Ha].
    exists (D3.initializeNode e a (SimulationNode.of_data d)). split; [|done].
    apply list_elem_of_lookup. exists a. unfold D3.initializeNodes.
    by rewrite list_lookup_imap, list_lookup_fmap, Ha.
Qed.

(** The effect, once past the guard, depends on the props only. *)
Lemma effect_nonempty (e : Engine.t) (p : Props.t) (c : Instance.t) :
  GraphData.nodes (Props.graph p) ≠ [] →
  effect e p c =
  match D3.initializeLinks
          (D3.nodeById
             (D3.initializeNodes e
                (map SimulationNode.of_data (GraphData.nodes (Props.graph p)))))
          0 (map SimulationLink.of_data (GraphData.links (Props.graph p))) with
  | inl err => inl err
  | inr links =>
      inr {| Instance.props := p;
             Instance.nodes :=
               D3.initializeNodes e
                 (map SimulationNode.of_data
                    (GraphData.nodes (Props.graph p)));
             Instance.links := links;
             Instance.simulation := Some (forces p) |}
  end.
Proof.
  unfold effect. by destruct (GraphData.nodes (Props.graph p)).
Qed.

(** X1. The set-up of a graph with at least one node comes to its end
    (mount or re-run, whatever the state before) exactly when every
    source and every target of its links is the id of one of its nodes. *)
Theorem setup_succeeds_iff_closed (e : Engine.t) (p : Props.t)
    (c0 : Instance.t) :
  GraphData.nodes (Props.graph p) ≠ [] →
  (∃ c, effect e p c0 = inr c) ↔ closed_links (Props.graph p).
Proof.
  intros Hne. rewrite (effect_nonempty e p c0 Hne).
  set (placed := D3.initializeNodes e _).
  set (links := map SimulationLink.of_data _).
  assert (∀ s, is_Some (D3.nodeById placed !! s)
               ↔ s ∈ node_ids (Props.graph p)) as Hmap.
  { intros s. rewrite <- placed_node_ids. split.
    - intros [a Ha]. apply nodeById_Some in Ha as (n & Hn & Hs).
      exists n. split; [by eapply list_elem_of_lookup_2|done].
    - intros (n & Hn & Hs). by eapply nodeById_is_Some. }
  split.
  - intros [c Hc].
    destruct (D3.initializeLinks _ 0 links) as [|r] eqn:Hr; [done|].
    apply initializeLinks_lookup in Hr as [_ Hr].
    intros l Hl. apply list_elem_of_lookup in Hl as [j Hj].
    destruct (Hr j (SimulationLink.of_data l)) as (s & t & Hs & Ht & _).
    { unfold links. by rewrite list_lookup_fmap, Hj. }
    apply find_Id in Hs as (a & Ha & _). apply find_Id in Ht as (b & Hb & _).
    split; apply Hmap; by eexists.
  - intros Hclosed.
    destruct (initializeLinks_ok (D3.nodeById placed) links 0) as [r ->];
      [|by eexists].
    intros link Hlink. apply list_elem_of_fmap in Hlink as (l & -> & Hl).
    destruct (Hclosed l Hl) as [Hs Ht].
    apply Hmap in Hs as [a Ha]. apply Hmap in Ht as [b Hb].
    split; eexists; apply find_Id; by eexists.
Qed.

Lemma setup_succeeds_iff_closed_witness :
  GraphData.nodes (Props.graph Sample.chain) ≠ [] ∧
  ((∃ c, effect Sample.engine Sample.chain (Instance.initial Sample.chain)
         = inr c)
   ↔ closed_links (Props.graph Sample.chain)).
Proof.
  split; [done|].
  apply (setup_succeeds_iff_closed Sample.engine Sample.chain). done.
Defined.

(** A resolved link between placed nodes is drawn, from the position of
    its source to the position of its target. *)
Lemma render_link_drawn (p : Props.t) (nodes : list SimulationNode.t)
    (i : nat) (link : SimulationLink.t) (a b : nat)
    (na nb : SimulationNode.t) :
  SimulationLink.source link = NodeRef a →
  SimulationLink.target link = NodeRef b →
  nodes !! a = Some na → nodes !! b = Some nb →
  placed na → placed nb →
  ∃ line, render_link p nodes i link = Some line ∧
          Svg.line_key line = i ∧
          SimulationNode.x na = Some (Svg.x1 line) ∧
          SimulationNode.y na = Some (Svg.y1 line) ∧
          SimulationNode.x nb = Some (Svg.x2 line) ∧
          SimulationNode.y nb = Some (Svg.y2 line).
Proof.
  intros Hs Ht Ha Hb [[xa Hxa] [ya Hya]] [[xb Hxb] [yb Hyb]].
  unfold render_link. rewrite Hs, Ht. simpl.
  rewrite Ha, Hb. simpl. rewrite Hxa, Hya, Hxb, Hyb.
  eexists. split; [done|]. simpl. done.
Qed.

(** The state a completed set-up leaves: the placed copies of the nodes
    and, for link [i] of the graph, a link whose ends are the addresses of
    nodes with the source and the target id. *)
Lemma setup_state (e : Engine.t) (p : Props.t) (c0 c : Instance.t) :
  GraphData.nodes (Props.graph p) ≠ [] →
  effect e p c0 = inr c →
  Instance.props c = p ∧
  Instance.nodes c
  = D3.initializeNodes e
      (map SimulationNode.of_data (GraphData.nodes (Props.graph p))) ∧
  well_formed c ∧
  ∀ i l, GraphData.links (Props.graph p) !! i = Some l →
    ∃ a b na nb,
      Instance.links c !! i
      = Some {| SimulationLink.source := NodeRef a;
                SimulationLink.target := NodeRef b;
                SimulationLink.index := Some i |} ∧
      Instance.nodes c !! a = Some na ∧ Instance.nodes c !! b = Some nb ∧
      SimulationNode.id na = LinkData.source l ∧
      SimulationNode.id nb = LinkData.target l.
Proof.
  intros Hne. rewrite (effect_nonempty e p c0 Hne).
  set (nodes := D3.initializeNodes e _).
  destruct (D3.initializeLinks _ 0 _) as [|r] eqn:Hr; [done|].
  intros [= <-]. apply initializeLinks_lookup in Hr as [Hlen Hr].
  assert (Forall placed nodes) as Hplaced by apply initializeNodes_placed.
  assert (∀ i l, GraphData.links (Props.graph p) !! i = Some l →
            ∃ a b na nb,
              r !! i = Some {| SimulationLink.source := NodeRef a;
                               SimulationLink.target := NodeRef b;
                               SimulationLink.index := Some i |} ∧
              nodes !! a = Some na ∧ nodes !! b = Some nb ∧
              SimulationNode.id na = LinkData.source l ∧
              SimulationNode.id nb = LinkData.target l) as Hlinks.
  { intros i l Hi.
    destruct (Hr i (SimulationLink.of_data l)) as (s & t & Hs & Ht & Hi').
    { by rewrite list_lookup_fmap, Hi. }
    apply find_Id in Hs as (a & Ha & ->). apply find_Id in Ht as (b & Hb & ->).
    apply nodeById_Some in Ha as (na & Hna & Hida).
    apply nodeById_Some in Hb as (nb & Hnb & Hidb).
    by exists a, b, na, nb. }
  split; [done|]. split; [done|]. split; [|exact Hlinks].
  split; [exact Hplaced|]. simpl. apply Forall_lookup. intros i link Hi.
  assert (is_Some (GraphData.links (Props.graph p) !! i)) as [l Hl].
  { apply lookup_lt_is_Some. apply lookup_lt_Some in Hi.
    rewrite Hlen, length_map in Hi. done. }
  destruct (Hlinks i l Hl) as (a & b & na & nb & Hi' & Hna & Hnb & _).
  rewrite Hi in Hi'. injection Hi' as ->. exists a, b. simpl.
  repeat split; by eapply lookup_lt_Some.
Qed.

(** X2. After a set-up that came to its end, the state holds one placed
    node per node of the graph, in the order of the graph, and every link
    of the graph is drawn: the line of link [i] has key [i] and runs from
    the position of a node with the link's source id to the position of a
    node with its target id. *)
Theorem setup_draws_every_link (e : Engine.t) (p : Props.t)
    (c0 c : Instance.t) :
  GraphData.nodes (Props.graph p) ≠ [] →
  effect e p c0 = inr c →
  well_formed c ∧
  map Svg.glyph_key (Svg.node_group (view c)) = node_ids (Props.graph p) ∧
  ∀ i l, GraphData.links (Props.graph p) !! i = Some l →
    ∃ a b na nb line,
      Instance.nodes c !! a = Some na ∧ Instance.nodes c !! b = Some nb ∧
      SimulationNode.id na = LinkData.source l ∧
      SimulationNode.id nb = LinkData.target l ∧
      Svg.link_group (view c) !! i = Some (Some line) ∧
      Svg.line_key line = i ∧
      SimulationNode.x na = Some (Svg.x1 line) ∧
      SimulationNode.y na = Some (Svg.y1 line) ∧
      SimulationNode.x nb = Some (Svg.x2 line) ∧
      SimulationNode.y nb = Some (Svg.y2 line).
Proof.
  intros Hne Hc.
  destruct (setup_state e p c0 c Hne Hc) as (Hp & Hnodes & Hwf & Hlinks).
  split; [exact Hwf|]. split.
  - unfold view. rewrite render_draws_every_node, Hnodes. unfold node_ids.
    apply list_eq. intros a. rewrite !list_lookup_fmap.
    unfold D3.initializeNodes. rewrite list_lookup_imap, list_lookup_fmap.
    by destruct (GraphData.nodes (Props.graph p) !! a).
  - intros i l Hl.
    destruct (Hlinks i l Hl) as (a & b & na & nb & Hi & Hna & Hnb & Ha & Hb).
    destruct Hwf as [Hplaced _].
    destruct (render_link_drawn (Instance.props c) (Instance.nodes c) i
                {| SimulationLink.source := NodeRef a;
                   SimulationLink.target := NodeRef b;
                   SimulationLink.index := Some i |}
                a b na nb eq_refl eq_refl Hna Hnb)
      as (line & Hline & Hrest).
    { by eapply Forall_lookup_1. }
    { by eapply Forall_lookup_1. }
    exists a, b, na, nb, line. repeat split; try done; try apply Hrest.
    unfold view. simpl. rewrite list_lookup_imap, Hi. simpl. by rewrite Hline.
Qed.

Lemma setup_draws_every_link_witness :
  let c := Sample.mounted Sample.chain in
  (GraphData.nodes (Props.graph Sample.chain) ≠ [] ∧
   effect Sample.engine Sample.chain (Instance.initial Sample.chain) = inr c) ∧
  well_formed c ∧
  map Svg.glyph_key (Svg.node_group (view c)) = ["x"; "b"; "c"] ∧
  ∀ i l, GraphData.links (Props.graph Sample.chain) !! i = Some l →
    ∃ a b na nb line,
      Instance.nodes c !! a = Some na ∧ Instance.nodes c !! b = Some nb ∧
      SimulationNode.id na = LinkData.source l ∧
      SimulationNode.id nb = LinkData.target l ∧
      Svg.link_group (view c) !! i = Some (Some line) ∧
      Svg.line_key line = i ∧
      SimulationNode.x na = Some (Svg.x1 line) ∧
      SimulationNode.y na = Some (Svg.y1 line) ∧
      SimulationNode.x nb = Some (Svg.x2 line) ∧
      SimulationNode.y nb = Some (Svg.y2 line).
Proof.
  split; [split; [done|reflexivity]|].
  apply (setup_draws_every_link Sample.engine Sample.chain
           (Instance.initial Sample.chain) (Sample.mounted Sample.chain));
    [done|reflexivity].
Defined.

(** ** Ticks *)

Lemma omap_id_length {A} (l : list (option A)) :
  Forall is_Some l → length (omap id l) = length l.
Proof.
  induction 1 as [|o l [a ->] _ IH]; [done|]. cbn. f_equal. exact IH.
Qed.

(** In a well-formed instance no link is answered with [null]. *)
Lemma well_formed_all_drawn (c : Instance.t) :
  well_formed c →
  Forall is_Some (Svg.link_group (view c)) ∧
  length (Svg.lines (view c)) = length (Instance.links c).
Proof.
  intros [Hplaced Hres].
  assert (Forall is_Some (Svg.link_group (view c))) as Hall.
  { apply Forall_lookup. intros i o Hi. unfold view in Hi. simpl in Hi.
    rewrite list_lookup_imap in Hi.
    destruct (Instance.links c !! i) as [link|] eqn:Hlink; [|done].
    simpl in Hi. injection Hi as <-.
    destruct (Forall_lookup_1 _ _ _ _ Hres Hlink)
      as (a & b & Hs & Ht & Ha & Hb).
    apply lookup_lt_is_Some in Ha as [na Hna].
    apply lookup_lt_is_Some in Hb as [nb Hnb].
    destruct (render_link_drawn (Instance.props c) (Instance.nodes c) i link
                a b na nb Hs Ht Hna Hnb) as (line & -> & _);
      [by eapply Forall_lookup_1|by eapply Forall_lookup_1|by eexists]. }
  split; [exact Hall|]. unfold Svg.lines. rewrite omap_id_length by done.
  unfold view. simpl. by rewrite length_imap.
Qed.

Lemma tickNode_placed (e : Engine.t) (f : Forces.t)
    (nodes : list SimulationNode.t) (links : list SimulationLink.t)
    (n : SimulationNode.t) :
  placed (D3.tickNode e f nodes links n).
Proof.
  unfold placed, D3.tickNode.
  destruct (Engine.move e f nodes links n) as [[? ?] [? ?]]. simpl.
  split; by eexists.
Qed.

Lemma tickNode_id (e : Engine.t) (f : Forces.t)
    (nodes : list SimulationNode.t) (links : list SimulationLink.t)
    (n : SimulationNode.t) :
  SimulationNode.id (D3.tickNode e f nodes links n) = SimulationNode.id n.
Proof.
  unfold D3.tickNode. by destruct (Engine.move e f nodes links n) as [[? ?] [? ?]].
Qed.

Lemma tick_well_formed (e : Engine.t) (c : Instance.t) :
  well_formed c →
  well_formed (tick e c) ∧
  Instance.links (tick e c) = Instance.links c ∧
  Instance.props (tick e c) = Instance.props c ∧
  map SimulationNode.id (Instance.nodes (tick e c))
  = map SimulationNode.id (Instance.nodes c).
Proof.
  intros [Hplaced Hres]. unfold tick.
  destruct (Instance.simulation c) as [f|]; [|done]. simpl.
  split; [split|split; [done|split; [done|]]].
  - unfold D3.tick. apply Forall_fmap, Forall_true. intros n.
    apply tickNode_placed.
  - simpl. eapply Forall_impl; [exact Hres|].
    intros link (a & b & Hs & Ht & Ha & Hb). exists a, b.
    unfold D3.tick. by rewrite length_map.
  - unfold D3.tick. rewrite map_map. apply map_ext. intros n.
    apply tickNode_id.
Qed.

(** X3. Once the set-up has come to its end, ticks keep the instance
    well formed: after any number of ticks every link of the state is
    still drawn as a line and the glyphs are those of the same nodes in
    the same order. *)
Theorem ticks_keep_every_link_drawn (e : Engine.t) (c : Instance.t)
    (n : nat) :
  well_formed c →
  well_formed (ticks e n c) ∧
  length (Svg.lines (view (ticks e n c))) = length (Instance.links c) ∧
  map Svg.glyph_key (Svg.node_group (view (ticks e n c)))
  = map Svg.glyph_key (Svg.node_group (view c)).
Proof.
  intros Hwf.
  assert (well_formed (ticks e n c) ∧
          Instance.links (ticks e n c) = Instance.links c ∧
          map SimulationNode.id (Instance.nodes (ticks e n c))
          = map SimulationNode.id (Instance.nodes c)) as (Hn & Hlinks & Hids).
  { induction n as [|n (IHwf & IHlinks & IHids)]; [done|].
    unfold ticks in *. simpl.
    destruct (tick_well_formed e _ IHwf) as (Hwf' & Hl & _ & Hi).
    split; [done|]. split; congruence. }
  split; [done|]. split.
  - destruct (well_formed_all_drawn _ Hn) as [_ ->]. by rewrite Hlinks.
  - unfold view. by rewrite !render_draws_every_node.
Qed.

Lemma ticks_keep_every_link_drawn_witness :
  let c := Sample.mounted Sample.chain in
  well_formed c ∧
  well_formed (ticks Sample.engine 5 c) ∧
  length (Svg.lines (view (ticks Sample.engine 5 c))) = 2 ∧
  map Svg.glyph_key (Svg.node_group (view (ticks Sample.engine 5 c)))
  = ["x"; "b"; "c"].
Proof.
  assert (well_formed (Sample.mounted Sample.chain)) as H.
  { apply (setup_state Sample.engine Sample.chain
             (Instance.initial Sample.chain)); [done|reflexivity]. }
  split; [exact H|].
  exact (ticks_keep_every_link_drawn Sample.engine
           (Sample.mounted Sample.chain) 5 H).
Defined.

(** X4. After the clean-up nothing moves any more: whatever the number
    of ticks that still arrive, the state and the SVG stay as they were
    when the component was torn down. *)
Theorem ticks_after_unmount (e : Engine.t) (c : Instance.t) (n : nat) :
  ticks e n (unmount c) = unmount c ∧
  view (ticks e n (unmount c)) = view c.
Proof.
  assert (ticks e n (unmount c) = unmount c) as H.
  { induction n as [|n IH]; [done|]. unfold ticks in *. simpl. by rewrite IH. }
  by rewrite H.
Qed.

(** ** Re-runs of the effect *)

(** X5. A re-run for a graph with at least one node starts from
    scratch: the outcome is that of mounting with the new props, so no
    position of the instance before survives; the nodes are the freshly
    placed copies of the nodes of the new graph. *)
Theorem update_restarts_from_scratch (e : Engine.t) (p : Props.t)
    (c : Instance.t) :
  deps_changed (Instance.props c) p = true →
  GraphData.nodes (Props.graph p) ≠ [] →
  update e p c = mount e p ∧
  ∀ c', update e p c = inr c' →
        Instance.nodes c'
        = D3.initializeNodes e
            (map SimulationNode.of_data (GraphData.nodes (Props.graph p))).
Proof.
  intros Hd Hne. rewrite (update_changed e p c Hd). unfold mount.
  rewrite !(effect_nonempty e p _ Hne). split; [done|].
  intros c'. destruct (D3.initializeLinks _ _ _); [done|]. by intros [= <-].
Qed.

Lemma update_restarts_from_scratch_witness :
  let c := ticks Sample.engine 3 (Sample.mounted Sample.single) in
  (deps_changed (Instance.props c) Sample.chain = true ∧
   GraphData.nodes (Props.graph Sample.chain) ≠ []) ∧
  update Sample.engine Sample.chain c = mount Sample.engine Sample.chain ∧
  ∀ c', update Sample.engine Sample.chain c = inr c' →
        Instance.nodes c'
        = D3.initializeNodes Sample.engine
            (map SimulationNode.of_data
               (GraphData.nodes (Props.graph Sample.chain))).
Proof.
  split; [split; [reflexivity|done]|].
  apply (update_restarts_from_scratch Sample.engine Sample.chain
           (ticks Sample.engine 3 (Sample.mounted Sample.single)));
    [reflexivity|done].
Defined.

(** X6. When the props change to a graph without nodes, the simulation
    is stopped but the state is not cleared: the nodes and links of the
    graph before stay in the state, hence on screen, and no tick changes
    them any more. *)
Theorem update_to_empty_keeps_old_graph (e : Engine.t) (p : Props.t)
    (c : Instance.t) :
  deps_changed (Instance.props c) p = true →
  GraphData.nodes (Props.graph p) = [] →
  ∃ c', update e p c = inr c' ∧
        Instance.nodes c' = Instance.nodes c ∧
        Instance.links c' = Instance.links c ∧
        Instance.simulation c' = None ∧
        map Svg.glyph_key (Svg.node_group (view c'))
        = map SimulationNode.id (Instance.nodes c) ∧
        ∀ n, ticks e n c' = c'.
Proof.
  intros Hd Hempty. rewrite (update_changed e p c Hd).
  rewrite (effect_empty e p _ Hempty).
  eexists. split; [done|]. repeat split.
  - unfold view. by rewrite render_draws_every_node.
  - intros n. induction n as [|n IH]; [done|].
    unfold ticks in *. simpl. by rewrite IH.
Qed.

Lemma update_to_empty_keeps_old_graph_witness :
  let c := Sample.mounted Sample.chain in
  (deps_changed (Instance.props c) Sample.empty = true ∧
   GraphData.nodes (Props.graph Sample.empty) = []) ∧
  ∃ c', update Sample.engine Sample.empty c = inr c' ∧
        Instance.nodes c' = Instance.nodes c ∧
        Instance.links c' = Instance.links c ∧
        Instance.simulation c' = None ∧
        map Svg.glyph_key (Svg.node_group (view c'))
        = map SimulationNode.id (Instance.nodes c) ∧
        ∀ n, ticks Sample.engine n c' = c'.
Proof.
  split; [split; reflexivity|].
  apply (update_to_empty_keeps_old_graph Sample.engine Sample.empty
           (Sample.mounted Sample.chain)); reflexivity.
Defined.

(** ** The theme switch *)

(** X7. A render whose props differ from the last ones in [isDarkMode]
    only runs no effect, and the geometry of the SVG (view box, keys,
    positions, radii, label boxes and texts, line ends and widths) is the
    same: the theme changes colours only. *)
Theorem isDarkMode_toggle_keeps_geometry (e : Engine.t) (c : Instance.t)
    (b : option bool) :
  let p' := set_isDarkMode b (Instance.props c) in
  let c' := Instance.with_props p' c in
  update e p' c = inr c' ∧
  Svg.viewBox (view c') = Svg.viewBox (view c) ∧
  map glyph_geometry (Svg.node_group (view c'))
  = map glyph_geometry (Svg.node_group (view c)) ∧
  map (fmap line_geometry) (Svg.link_group (view c'))
  = map (fmap line_geometry) (Svg.link_group (view c)).
Proof.
  intros p' c'. split; [|split; [done|split]].
  - apply update_unchanged. by apply deps_changed_false.
  - unfold view. simpl. rewrite !map_map. apply map_ext. intros n.
    unfold glyph_geometry. simpl.
    destruct (JS.opt_strict_eq _ _), (Props.showLabels _); done.
  - unfold view. simpl. apply list_eq. intros i.
    rewrite !list_lookup_fmap, !list_lookup_imap.
    destruct (Instance.links c !! i) as [link|]; [|done]. simpl. f_equal.
    unfold render_link.
    destruct (SimulationLink.source link); [done|].
    destruct (SimulationLink.target link); [done|].
    destruct (position _ _) as [[[?|] [?|]]|]; try done.
    destruct (position _ _) as [[[?|] [?|]]|]; done.
Qed.

(** ** Where glyphs and lines are put *)

Lemma or_number_truthy (v d : JS.number) :
  JS.truthy_number v = true → JS.or_number (Some v) d = v.
Proof. simpl. by intros ->. Qed.

(** X8. A line meets the glyphs it joins: when the coordinates of the
    two end nodes of a resolved link are numbers other than [0] and
    [NaN], the line is drawn from the translation of the source glyph to
    the translation of the target glyph. *)
Theorem line_ends_meet_glyphs (p : Props.t) (nodes : list SimulationNode.t)
    (links : list SimulationLink.t) (i : nat) (link : SimulationLink.t)
    (a b : nat) (na nb : SimulationNode.t) (xa ya xb yb : JS.number) :
  links !! i = Some link →
  SimulationLink.source link = NodeRef a →
  SimulationLink.target link = NodeRef b →
  nodes !! a = Some na → nodes !! b = Some nb →
  SimulationNode.x na = Some xa → SimulationNode.y na = Some ya →
  SimulationNode.x nb = Some xb → SimulationNode.y nb = Some yb →
  JS.truthy_number xa = true → JS.truthy_number ya = true →
  JS.truthy_number xb = true → JS.truthy_number yb = true →
  ∃ line ga gb,
    Svg.link_group (render p nodes links) !! i = Some (Some line) ∧
    Svg.node_group (render p nodes links) !! a = Some ga ∧
    Svg.node_group (render p nodes links) !! b = Some gb ∧
    (Svg.x1 line, Svg.y1 line) = Svg.translate ga ∧
    (Svg.x2 line, Svg.y2 line) = Svg.translate gb.
Proof.
  intros Hi Hs Ht Ha Hb Hxa Hya Hxb Hyb Txa Tya Txb Tyb.
  destruct (render_link_drawn p nodes i link a b na nb Hs Ht Ha Hb)
    as (line & Hline & _ & H1 & H2 & H3 & H4).
  { split; by eexists. }
  { split; by eexists. }
  exists line, (render_node p na), (render_node p nb).
  simpl. rewrite list_lookup_imap, !list_lookup_fmap, Hi, Ha, Hb. simpl.
  rewrite Hline. repeat split; try done.
  - rewrite Hxa, Hya, !or_number_truthy by done. congruence.
  - rewrite Hxb, Hyb, !or_number_truthy by done. congruence.
Qed.

Lemma line_ends_meet_glyphs_witness :
  let c := Sample.mounted Sample.chain in
  ∃ line ga gb,
    Svg.link_group (view c) !! 0 = Some (Some line) ∧
    Svg.node_group (view c) !! 0 = Some ga ∧
    Svg.node_group (view c) !! 1 = Some gb ∧
    (Svg.x1 line, Svg.y1 line) = Svg.translate ga ∧
    (Svg.x2 line, Svg.y2 line) = Svg.translate gb.
Proof.
  eapply (line_ends_meet_glyphs Sample.chain
            (Instance.nodes (Sample.mounted Sample.chain))
            (Instance.links (Sample.mounted Sample.chain)) 0 _ 0 1);
    reflexivity.
Defined.

(** X9. A coordinate that is [0] (or [-0], or [NaN]) counts as missing
    for the glyph but not for the lines: the glyph of a node whose [x] is
    such a number is translated to [width / 2], while a line from that
    node still starts at the node's own [x]. *)
Theorem falsy_coordinate_moves_glyph_only (p : Props.t)
    (nodes : list SimulationNode.t) (links : list SimulationLink.t)
    (i : nat) (link : SimulationLink.t) (a b : nat)
    (na nb : SimulationNode.t) (v : JS.number) :
  links !! i = Some link →
  SimulationLink.source link = NodeRef a →
  SimulationLink.target link = NodeRef b →
  nodes !! a = Some na → nodes !! b = Some nb →
  placed na → placed nb →
  SimulationNode.x na = Some v → JS.truthy_number v = false →
  ∃ line ga,
    Svg.link_group (render p nodes links) !! i = Some (Some line) ∧
    Svg.node_group (render p nodes links) !! a = Some ga ∧
    Svg.x1 line = v ∧
    (Svg.translate ga).1 = (Props.width p / 2)%float.
Proof.
  intros Hi Hs Ht Ha Hb Pa Pb Hx Hv.
  destruct (render_link_drawn p nodes i link a b na nb Hs Ht Ha Hb Pa Pb)
    as (line & Hline & _ & H1 & _).
  exists line, (render_node p na).
  simpl. rewrite list_lookup_imap, !list_lookup_fmap, Hi, Ha. simpl.
  rewrite Hline. repeat split; try done.
  - congruence.
  - rewrite Hx. simpl. by rewrite Hv.
Qed.

Lemma falsy_coordinate_moves_glyph_only_witness :
  ∃ line ga,
    Svg.link_group (render Sample.chain origin_nodes Sample.frame_links) !! 0
    = Some (Some line) ∧
    Svg.node_group (render Sample.chain origin_nodes Sample.frame_links) !! 0
    = Some ga ∧
    Svg.x1 line = 0%float ∧
    (Svg.translate ga).1 = 400%float.
Proof.
  eapply (falsy_coordinate_moves_glyph_only Sample.chain origin_nodes
            Sample.frame_links 0 _ 0 1 origin_node Sample.moving_root 0%float);
    try reflexivity; split; by eexists.
Defined.

(** ** The shape of a glyph *)

Lemma root_radius (g : option JS.number) :
  JS.opt_strict_eq g 1 = true → getRadius g = 50%float.
Proof.
  destruct g as [v|]; [|done]. unfold getRadius. simpl. by intros ->.
Qed.

(** X10. The halo is drawn for the nodes with [group === 1] and for no
    other; it has radius 60, ten more than the root's circle of radius
    50, and the colour of that circle's stroke. The label of any node sits
    in the square around its circle: the box starts at [-r] and its side
    is [2r], so it ends at [r]. *)
Theorem glyph_shape (p : Props.t) (n : SimulationNode.t) :
  let g := render_node p n in
  let r := Svg.r (Svg.glyph_circle g) in
  (is_Some (Svg.glyph_halo g)
   ↔ JS.opt_strict_eq (SimulationNode.group n) 1 = true) ∧
  (∀ h, Svg.glyph_halo g = Some h →
        Svg.halo_r h = 60%float ∧ r = 50%float ∧
        Svg.halo_fill h = Svg.stroke (Svg.glyph_circle g)) ∧
  (∀ f, Svg.glyph_label g = Some f →
        (Svg.fo_x f + Svg.fo_width f)%float = r ∧
        (Svg.fo_y f + Svg.fo_height f)%float = r ∧
        Svg.fo_x f = (- r)%float ∧ Svg.fo_y f = (- r)%float ∧
        Svg.fo_width f = Svg.fo_height f ∧
        Svg.fo_text f = SimulationNode.label n).
Proof.
  intros g r. subst g r. simpl. split; [|split].
  - destruct (JS.opt_strict_eq _ _); split; intros H; try done;
      first [by eexists | by destruct H].
  - intros h. destruct (JS.opt_strict_eq _ _) eqn:Hroot; [|done].
    intros [= <-]. simpl. rewrite (root_radius _ Hroot). done.
  - intros f. destruct (Props.showLabels p); [|done]. intros [= <-]. simpl.
    destruct (getRadius_cases (SimulationNode.group n)) as [->|[->| ->]];
      done.
Qed.

(** * Properties of InfographicView, geminiService and App *)

(** ** Cards *)

(** X11. The card grid has one card per item, in the order of the
    items: card [i] has key [i] and the title and icon of item [i], and
    carries the description of item [i] exactly when [showDescription]
    holds. *)
Theorem cards_follow_items (showDescription : bool)
    (data : list InfographicItem.t) :
  length (InfographicView.render showDescription data) = length data ∧
  ∀ i item, data !! i = Some item →
    ∃ card,
      InfographicView.render showDescription data !! i = Some card ∧
      InfographicView.card_key card = i ∧
      InfographicView.card_title card = InfographicItem.title item ∧
      InfographicView.card_icon card = InfographicView.Icon item ∧
      (InfographicView.card_description card
       = Some (InfographicItem.description item) ↔ showDescription = true) ∧
      (InfographicView.card_description card = None
       ↔ showDescription = false).
Proof.
  unfold InfographicView.render. split; [by rewrite length_imap|].
  intros i item Hi. rewrite list_lookup_imap, Hi. simpl.
  eexists. split; [done|]. simpl. by destruct showDescription.
Qed.

(** X12. Every key that the response schema of
    [generateInfographicData] allows for [icon] is a key of [IconMap]
    with a glyph of its own: the glyph is not the fallback glyph, and two
    different allowed keys give two different glyphs. *)
Theorem schema_icons_have_own_glyphs (a b : InfographicItem.t) :
  InfographicItem.icon a ∈ GeminiService.icon_enum →
  InfographicItem.icon b ∈ GeminiService.icon_enum →
  (∃ c, InfographicView.Icon a = InfographicView.Component c ∧
        c ≠ InfographicView.SparklesIcon) ∧
  (InfographicView.Icon a = InfographicView.Icon b →
   InfographicItem.icon a = InfographicItem.icon b).
Proof.
  destruct a as [ta da ka], b as [tb db kb]. simpl. intros Ha Hb.
  unfold GeminiService.icon_enum in *.
  repeat (apply elem_of_cons in Ha as [->|Ha]);
    try (by apply elem_of_nil in Ha);
    (split; [by eexists|]);
    repeat (apply elem_of_cons in Hb as [->|Hb]);
    try (by apply elem_of_nil in Hb); by vm_compute.
Qed.

Lemma schema_icons_have_own_glyphs_witness :
  let a := SampleApp.item "Growth" "Up" "chart" in
  let b := SampleApp.item "Idea" "New" "bulb" in
  (∃ c, InfographicView.Icon a = InfographicView.Component c ∧
        c ≠ InfographicView.SparklesIcon) ∧
  (InfographicView.Icon a = InfographicView.Icon b →
   InfographicItem.icon a = InfographicItem.icon b).
Proof.
  apply (schema_icons_have_own_glyphs
           (SampleApp.item "Growth" "Up" "chart")
           (SampleApp.item "Idea" "New" "bulb")).
  - by left.
  - right. by left.
Defined.

(** ** The services *)

Lemma truthy_string_nonempty (s : string) :
  JS.truthy_string s = true ↔ s ≠ "".
Proof. by destruct s. Qed.

Lemma parse_response_Resolved {A} (parse : string → option A)
    (response : outcome (option string)) (v : A) :
  GeminiService.parse_response parse response = Resolved v ↔
  ∃ jsonText, response = Resolved (Some jsonText) ∧ jsonText ≠ "" ∧
              parse jsonText = Some v.
Proof.
  unfold GeminiService.parse_response. split.
  - destruct response as [[t|]|]; try done.
    destruct (JS.truthy_string t) eqn:Ht; [|done].
    destruct (parse t) as [w|] eqn:Hp; [|done]. intros [= ->].
    exists t. by rewrite <- truthy_string_nonempty.
  - intros (t & -> & Ht & Hp). apply truthy_string_nonempty in Ht.
    by rewrite Ht, Hp.
Qed.

(** X13. A summary that [summarizeText] resolves to is never the empty
    string (a response without text gives the fallback sentence), and
    the two generators resolve only to what [JSON.parse] made of a
    non-empty response text: without text they reject. *)
Theorem service_results (response : outcome (option string)) :
  (∀ s, GeminiService.summarizeText response = Resolved s → s ≠ "") ∧
  (GeminiService.summarizeText response = Rejected ↔ response = Rejected) ∧
  (∀ parse g,
     GeminiService.generateMindMapData parse response = Resolved g ↔
     ∃ jsonText, response = Resolved (Some jsonText) ∧ jsonText ≠ "" ∧
                 parse jsonText = Some g) ∧
  (∀ parse items,
     GeminiService.generateInfographicData parse response = Resolved items ↔
     ∃ jsonText, response = Resolved (Some jsonText) ∧ jsonText ≠ "" ∧
                 parse jsonText = Some items).
Proof.
  split; [|split; [|split]].
  - intros s. destruct response as [text|]; [|done]. intros [= <-].
    by apply or_string_nonempty.
  - by destruct response.
  - intros parse g. apply parse_response_Resolved.
  - intros parse items. apply parse_response_Resolved.
Qed.

(** ** The handlers *)

Section AppProperties.

Variable parseGraph : string → option GraphData.t.
Variable parseItems : string → option (list InfographicItem.t).

#[local] Abbreviation step := (Handlers.step parseGraph parseItems).
#[local] Abbreviation steps := (Handlers.steps parseGraph parseItems).
#[local] Abbreviation reachable := (Handlers.reachable parseGraph parseItems).

(** X14. A click on the summarise button with a text of white space
    only sets the error message and starts no call: nothing is under way
    afterwards and the summary is the one before. With any other text the
    error is cleared and the call is under way. *)
Theorem summarize_guard (st st' : AppState.t) :
  step st Handlers.ClickSummarize = Some st' →
  AppState.summary st' = AppState.summary st ∧
  if JSString.is_blank (AppState.inputText st)
  then st' = AppState.setError (Some Handlers.blank_input_error) st ∧
       Handlers.enabled st' (Handlers.SummarizeSettled Rejected) = false
  else AppState.error st' = None ∧
       ∀ response,
         Handlers.enabled st' (Handlers.SummarizeSettled response) = true.
Proof.
  unfold Handlers.step. destruct (Handlers.enabled _ _) eqn:Hen; [|done].
  intros [= <-]. simpl in Hen.
  apply andb_true_iff in Hen as [_ Hen].
  apply negb_true_iff, orb_false_iff in Hen as [Hs _].
  simpl. unfold Handlers.handleSummarize.
  destruct (JSString.is_blank _); simpl; done.
Qed.

Lemma summarize_result_nonempty (response : outcome (option string))
    (s : string) :
  GeminiService.summarizeText response = Resolved s → s ≠ "".
Proof.
  destruct response as [text|]; [|done]. intros [= <-].
  by apply or_string_nonempty.
Qed.

Lemma app_invariant_initial : app_invariant AppState.initial.
Proof. unfold app_invariant. simpl. repeat split; done. Qed.

#[local] Set Warnings "-clear-no-such-hyp".

Lemma app_invariant_step (st st' : AppState.t) (ev : Handlers.event) :
  app_invariant st → step st ev = Some st' → app_invariant st'.
Proof.
  unfold Handlers.step. intros Hinv.
  destruct (Handlers.enabled st ev) eqn:Hen; [|done]. intros [= <-].
  destruct st as [v ty it su gd id f1 f2 f3 er dk an].
  unfold app_invariant in *. simpl in Hinv.
  destruct Hinv as (I1 & I2 & I3 & I4 & I5).
  destruct ev; simpl in Hen |- *;
    unfold Handlers.handleSummarize, Handlers.summarize_settled,
      Handlers.handleCreateMindMap, Handlers.mindmap_settled,
      Handlers.handleCreateInfographic, Handlers.infographic_settled,
      Handlers.handleEdit, Handlers.on_visualizer, Handlers.on_input in *;
    simpl in *.
  - done.
  - done.
  - done.
  - destruct (JSString.is_blank it); simpl; done.
  - destruct (GeminiService.summarizeText response) as [s|] eqn:Hs; simpl;
      [|done].
    apply summarize_result_nonempty in Hs. naive_solver.
  - apply andb_true_iff in Hen as [Hen Hf]. apply andb_true_iff in Hen as [_ Hsu].
    rewrite Hsu. apply truthy_string_nonempty in Hsu.
    apply negb_true_iff in Hf. subst f2.
    destruct gd; simpl; naive_solver.
  - subst f2. destruct (I1 eq_refl) as [-> Hsu].
    destruct (GeminiService.generateMindMapData _ _); simpl; naive_solver.
  - apply andb_true_iff in Hen as [Hen Hf]. apply andb_true_iff in Hen as [_ Hsu].
    rewrite Hsu. apply truthy_string_nonempty in Hsu.
    apply negb_true_iff in Hf. subst f3.
    destruct id; simpl; naive_solver.
  - subst f3. destruct (I2 eq_refl) as [-> Hsu].
    destruct (GeminiService.generateInfographicData _ _); simpl; naive_solver.
  - naive_solver.
  - naive_solver.
  - done.
  - done.
Qed.

Lemma reachable_invariant (st : AppState.t) : reachable st → app_invariant st.
Proof.
  induction 1 as [|st ev st' _ IH Hstep]; [apply app_invariant_initial|].
  by eapply app_invariant_step.
Qed.

Lemma reachable_steps (st st' : AppState.t) (evs : list Handlers.event) :
  reachable st → steps st evs = Some st' → reachable st'.
Proof.
  revert st. induction evs as [|ev evs IH]; intros st Hst; simpl.
  - by intros [= <-].
  - destruct (step st ev) as [st1|] eqn:Hstep; [|done]. simpl.
    apply IH. by eapply Handlers.reachable_step.
Qed.

(** One event leaves a generated graph and generated cards in place. *)
Lemma step_keeps_data (st st' : AppState.t) (ev : Handlers.event) :
  app_invariant st → step st ev = Some st' →
  (∀ g, AppState.graphData st = Some g → AppState.graphData st' = Some g) ∧
  (∀ d, AppState.infographicData st = Some d →
        AppState.infographicData st' = Some d).
Proof.
  unfold Handlers.step. intros Hinv.
  destruct (Handlers.enabled st ev) eqn:Hen; [|done]. intros [= <-].
  destruct st as [v ty it su gd id f1 f2 f3 er dk an].
  unfold app_invariant in *. simpl in Hinv.
  destruct Hinv as (I1 & I2 & _).
  destruct ev; simpl in Hen |- *;
    unfold Handlers.handleSummarize, Handlers.summarize_settled,
      Handlers.handleCreateMindMap, Handlers.mindmap_settled,
      Handlers.handleCreateInfographic, Handlers.infographic_settled,
      Handlers.handleEdit in *;
    simpl in *; try done.
  - by destruct (JSString.is_blank it).
  - by destruct (GeminiService.summarizeText response).
  - by destruct (JS.truthy_string su), gd.
  - subst f2. destruct (I1 eq_refl) as [-> _].
    by destruct (GeminiService.generateMindMapData _ _).
  - by destruct (JS.truthy_string su), id.
  - subst f3. destruct (I2 eq_refl) as [-> _].
    by destruct (GeminiService.generateInfographicData _ _).
Qed.

(** X15. The generated data are written once: from the moment a graph
    (or a list of cards) is in the state, it stays there unchanged
    whatever happens next, a new summary included; later clicks on the
    button show it again and ask for no new one. *)
Theorem generated_data_written_once (st st' : AppState.t)
    (evs : list Handlers.event) :
  reachable st → steps st evs = Some st' →
  (∀ g, AppState.graphData st = Some g → AppState.graphData st' = Some g) ∧
  (∀ d, AppState.infographicData st = Some d →
        AppState.infographicData st' = Some d).
Proof.
  revert st. induction evs as [|ev evs IH]; intros st Hst; simpl.
  - by intros [= <-].
  - destruct (step st ev) as [st1|] eqn:Hstep; [|done]. simpl. intros Hsteps.
    destruct (step_keeps_data st st1 ev (reachable_invariant st Hst) Hstep)
      as [Hg Hd].
    destruct (IH st1) as [Hg' Hd'];
      [by eapply Handlers.reachable_step|done|].
    split; eauto.
Qed.


(** X17. No event of the page restarts the simulation of a mind map
    that stays on the screen: when [MindMapGraph] is rendered before and
    after an event, its new props have the same [data] object, width and
    height, so the effect is not run again. *)
Theorem app_events_keep_simulation (st st' : AppState.t)
    (ev : Handlers.event) (p p' : Props.t) :
  reachable st → step st ev = Some st' →
  Handlers.mindmap_props st = Some p →
  Handlers.mindmap_props st' = Some p' →
  deps_changed p p' = false ∧
  ∀ e c, Instance.props c = p →
         update e p' c = inr (Instance.with_props p' c).
Proof.
  intros Hst Hstep Hp Hp'.
  destruct (step_keeps_data st st' ev (reachable_invariant st Hst) Hstep)
    as [Hg _].
  unfold Handlers.mindmap_props in Hp, Hp'.
  destruct (AppState.view st), (AppState.visualizerType st),
    (AppState.graphData st) as [g|]; try done.
  rewrite (Hg g eq_refl) in Hp'.
  destruct (AppState.view st'), (AppState.visualizerType st'); try done.
  injection Hp as <-. injection Hp' as <-.
  assert (deps_changed
            {| Props.data := g; Props.width_opt := None;
               Props.height_opt := None;
               Props.isDarkMode_opt := Some (AppState.isDarkMode st);
               Props.showLabels_opt := Some (AppState.showAnnotations st) |}
            {| Props.data := g; Props.width_opt := None;
               Props.height_opt := None;
               Props.isDarkMode_opt := Some (AppState.isDarkMode st');
               Props.showLabels_opt := Some (AppState.showAnnotations st') |}
          = false) as Hd by by apply deps_changed_false.
  split; [exact Hd|]. intros e c Hc. apply update_unchanged. by rewrite Hc.
Qed.

(** X18. A call that fails leaves the page where it is: after a
    rejected summary or generation the screen, the summary and the
    generated data are those before, the error message of that call is
    set and the call is no longer under way. *)
Theorem failed_call_reports_error (st st' : AppState.t)
    (ev : Handlers.event) :
  step st ev = Some st' →
  call_failed parseGraph parseItems ev →
  AppState.view st' = AppState.view st ∧
  AppState.visualizerType st' = AppState.visualizerType st ∧
  AppState.summary st' = AppState.summary st ∧
  AppState.graphData st' = AppState.graphData st ∧
  AppState.infographicData st' = AppState.infographicData st ∧
  AppState.error st' = failure_message ev ∧
  Handlers.enabled st' ev = false.
Proof.
  unfold Handlers.step. destruct (Handlers.enabled st ev); [|done].
  intros [= <-].
  destruct ev; try done; simpl;
    unfold Handlers.summarize_settled, Handlers.mindmap_settled,
      Handlers.infographic_settled; by intros ->.
Qed.

End AppProperties.

Lemma showing_mindmap_reachable :
  Handlers.reachable SampleApp.parseGraph SampleApp.parseItems
    SampleApp.showing_mindmap.
Proof.
  apply (reachable_steps _ _ AppState.initial _ SampleApp.to_mindmap);
    [apply Handlers.reachable_initial|reflexivity].
Qed.

Lemma awaiting_mindmap_reachable :
  Handlers.reachable SampleApp.parseGraph SampleApp.parseItems
    awaiting_mindmap.
Proof.
  apply (reachable_steps _ _ AppState.initial _ (take 4 SampleApp.to_mindmap));
    [apply Handlers.reachable_initial|reflexivity].
Qed.

Lemma summarize_guard_witness :
  let st := SampleApp.blank_typed in
  let st' := AppState.setError (Some Handlers.blank_input_error) st in
  Handlers.step SampleApp.parseGraph SampleApp.parseItems st
    Handlers.ClickSummarize = Some st' ∧
  AppState.summary st' = AppState.summary st ∧
  st' = AppState.setError (Some Handlers.blank_input_error) st ∧
  Handlers.enabled st' (Handlers.SummarizeSettled Rejected) = false.
Proof.
  split; [reflexivity|].
  exact (summarize_guard SampleApp.parseGraph SampleApp.parseItems
           SampleApp.blank_typed
           (AppState.setError (Some Handlers.blank_input_error)
              SampleApp.blank_typed) eq_refl).
Defined.

Lemma generated_data_written_once_witness :
  ∃ st',
    Handlers.steps SampleApp.parseGraph SampleApp.parseItems
      SampleApp.showing_mindmap summarize_again = Some st' ∧
    AppState.summary st' = "another summary" ∧
    (∀ g, AppState.graphData SampleApp.showing_mindmap = Some g →
          AppState.graphData st' = Some g) ∧
    (∀ d, AppState.infographicData SampleApp.showing_mindmap = Some d →
          AppState.infographicData st' = Some d).
Proof.
  eexists. split; [reflexivity|]. split; [reflexivity|].
  eapply (generated_data_written_once SampleApp.parseGraph SampleApp.parseItems
            SampleApp.showing_mindmap _ summarize_again);
    [apply showing_mindmap_reachable|reflexivity].
Defined.


Lemma app_events_keep_simulation_witness :
  ∃ st' p p',
    Handlers.step SampleApp.parseGraph SampleApp.parseItems
      SampleApp.showing_mindmap Handlers.ToggleDarkMode = Some st' ∧
    Handlers.mindmap_props SampleApp.showing_mindmap = Some p ∧
    Handlers.mindmap_props st' = Some p' ∧
    Props.isDarkMode p' = negb (Props.isDarkMode p) ∧
    deps_changed p p' = false ∧
    ∀ e c, Instance.props c = p →
           update e p' c = inr (Instance.with_props p' c).
Proof.
  eexists _, _, _. split; [reflexivity|]. split; [reflexivity|].
  split; [reflexivity|]. split; [reflexivity|].
  eapply (app_events_keep_simulation SampleApp.parseGraph SampleApp.parseItems
            SampleApp.showing_mindmap _ Handlers.ToggleDarkMode);
    [apply showing_mindmap_reachable|reflexivity..].
Defined.

Lemma failed_call_reports_error_witness :
  let ev := Handlers.MindMapSettled 7 (Resolved None) in
  ∃ st',
    Handlers.step SampleApp.parseGraph SampleApp.parseItems
      awaiting_mindmap ev = Some st' ∧
    call_failed SampleApp.parseGraph SampleApp.parseItems ev ∧
    AppState.view st' = AppState.input ∧
    AppState.visualizerType st' = AppState.visualizerType awaiting_mindmap ∧
    AppState.summary st' = "short" ∧
    AppState.graphData st' = None ∧
    AppState.infographicData st' = None ∧
    AppState.error st' = Some Handlers.mindmap_error ∧
    Handlers.enabled st' ev = false.
Proof.
  eexists. split; [reflexivity|]. split; [reflexivity|].
  eapply (failed_call_reports_error SampleApp.parseGraph SampleApp.parseItems
            awaiting_mindmap _ (Handlers.MindMapSettled 7 (Resolved None)));
    reflexivity.
Defined.

(** ** The download *)

(** X19. The SVG download never contains the mind map: while the mind
    map is selected, the first [<svg>] of the visualiser screen is the
    sparkles icon of the header, and that is the element
    [handleDownload] serialises into [sodo-tuduy-gemini.svg], whatever
    [MindMapGraph] shows. *)
Theorem mindmap_download_is_header_icon (st : AppState.t) (s : Svg.svg) :
  AppState.visualizerType st = App.mindmap →
  Handlers.handleDownload st (Handlers.visualizer_svgs st s)
  = Some {| Handlers.file_name := "sodo-tuduy-gemini.svg";
            Handlers.file_type := "image/svg+xml;charset=utf-8";
            Handlers.file_body :=
              Handlers.Serialized (Handlers.Heroicon "SparklesIcon") |} ∧
  ∀ f, Handlers.handleDownload st (Handlers.visualizer_svgs st s) = Some f →
       Handlers.file_body f ≠ Handlers.Serialized (Handlers.MindMapSvg s).
Proof.
  intros Hty. unfold Handlers.handleDownload. rewrite Hty. simpl.
  split; [done|]. by intros f [= <-].
Qed.

Lemma mindmap_download_is_header_icon_witness :
  let st := SampleApp.showing_mindmap in
  let s := view (Sample.mounted Sample.chain) in
  AppState.visualizerType st = App.mindmap ∧
  Handlers.MindMapSvg s ∈ Handlers.visualizer_svgs st s ∧
  Handlers.handleDownload st (Handlers.visualizer_svgs st s)
  = Some {| Handlers.file_name := "sodo-tuduy-gemini.svg";
            Handlers.file_type := "image/svg+xml;charset=utf-8";
            Handlers.file_body :=
              Handlers.Serialized (Handlers.Heroicon "SparklesIcon") |} ∧
  ∀ f, Handlers.handleDownload st (Handlers.visualizer_svgs st s) = Some f →
       Handlers.file_body f ≠ Handlers.Serialized (Handlers.MindMapSvg s).
Proof.
  split; [reflexivity|]. split.
  - right. right. by left.
  - exact (mindmap_download_is_header_icon SampleApp.showing_mindmap
             (view (Sample.mounted Sample.chain)) eq_refl).
Defined.



Lemma string_app_assoc (a b c : string) : (a +:+ b) +:+ c = a +:+ b +:+ c.
Proof.
  induction a as [|x a IH]; [done|].
  change (String x ((a +:+ b) +:+ c) = String x (a +:+ b +:+ c)).
  by rewrite IH.
Qed.

Lemma join_app (sep : string) (l1 l2 : list string) :
  l1 ≠ [] → l2 ≠ [] →
  JSString.join sep (l1 ++ l2)
  = JSString.join sep l1 +:+ sep +:+ JSString.join sep l2.
Proof.
  intros H1 H2. induction l1 as [|x [|y l1] IH]; [done| |].
  - destruct l2; done.
  - change (JSString.join sep ((x :: y :: l1) ++ l2))
      with (x +:+ sep +:+ JSString.join sep ((y :: l1) ++ l2)).
    rewrite IH by done.
    change (JSString.join sep (x :: y :: l1))
      with (x +:+ sep +:+ JSString.join sep (y :: l1)).
    by rewrite !string_app_assoc.
Qed.

(** X21. The text download is put together section by section: the
    text of no card is empty, and the text of two non-empty lists of
    cards one after the other is the text of the first, a newline and the
    text of the second. *)
Theorem download_text_app (d1 d2 : list InfographicItem.t) :
  d1 ≠ [] → d2 ≠ [] →
  Handlers.download_text [] = "" ∧
  Handlers.download_text (d1 ++ d2)
  = Handlers.download_text d1 +:+ JSString.newline
    +:+ Handlers.download_text d2.
Proof.
  intros H1 H2. split; [done|]. unfold Handlers.download_text.
  rewrite map_app. apply join_app; by destruct d1, d2.
Qed.

Lemma download_text_app_witness :
  let a := [SampleApp.item "Growth" "Up" "chart"] in
  let b := [SampleApp.item "Idea" "New" "bulb"] in
  Handlers.download_text [] = "" ∧
  Handlers.download_text (a ++ b)
  = Handlers.download_text a +:+ JSString.newline
    +:+ Handlers.download_text b.
Proof.
  apply (download_text_app [SampleApp.item "Growth" "Up" "chart"]
           [SampleApp.item "Idea" "New" "bulb"]); done.
Defined.
